(** * Qilowatt Home Assistant bridge: [custom_components/qilowatt/mqtt_client.py]

    A shallow embedding of the [MQTTClient] wrapper class: the instance
    attribute dictionary built by [__init__], the command callback and its
    hand-off to the host event loop, the inverter-control coroutine with its
    source-based authorization table, and the periodic telemetry loop. *)

From Stdlib Require Import ZArith Lia.
From stdpp Require Import base option list strings gmap pretty.

Open Scope string_scope.
Open Scope list_scope.

(** ** Python values, exceptions and outcomes *)

(** Scalars as they occur in a config entry's [data] mapping. *)
Inductive value :=
| VNone
| VBool (b : bool)
| VInt (z : Z)
| VStr (s : string).

(** [str(v)], as an f-string placeholder formats a scalar. *)
Definition py_str (v : value) : string :=
  match v with
  | VNone => "None"
  | VBool true => "True"
  | VBool false => "False"
  | VInt z => pretty z
  | VStr s => s
  end.

(** Exception classes.  [CancelledError], [KeyboardInterrupt] and
    [SystemExit] derive from [BaseException] only; an [except Exception]
    clause does not catch them. *)
Inductive exn_class :=
| AttributeError
| KeyError
| TypeError
| RuntimeError
| Exception
| CancelledError
| KeyboardInterrupt
| SystemExit.

Record exn := mk_exn { exn_cls : exn_class; exn_str : string }.

Definition is_Exception (e : exn) : bool :=
  match exn_cls e with
  | CancelledError | KeyboardInterrupt | SystemExit => false
  | _ => true
  end.

Inductive outcome (A : Type) :=
| Ok (a : A)
| Raise (e : exn).
Arguments Ok {A} a.
Arguments Raise {A} e.

(** ** Collaborator data *)

(** [qilowatt.WorkModeCommand]: the origin tag read by the control path and
    the remaining fields, which this module never inspects. *)
Record WorkModeCommand := mk_command {
  _source : string;
  fields : list (string * value)
}.

Record EnergyData := mk_energy { energy_fields : list Z }.
Record MetricsData := mk_metrics { metrics_fields : list Z }.

Record ConfigEntry := mk_entry {
  entry_id : string;
  data : gmap string value
}.

(** What an attribute of an [MQTTClient] instance can be bound to. *)
Inductive attr :=
| AVal (v : value)
| AHass
| AConfigEntry (c : ConfigEntry)
| AInverter (cls : string)
| AQilowattClient
| AEntityRegistry.

(** What [self.name] evaluates to: the bound attribute, or a method of the
    class. *)
Inductive attr_ref :=
| Bound (a : attr)
| Method (name : string).

(** ** Observable effects *)

Inductive level := DEBUG | INFO | ERROR.

(** Pieces of a formatted log message: literal text and the interpolated
    objects of an f-string. *)
Inductive piece :=
| Lit (s : string)
| FStr (s : string)
| FCommand (c : WorkModeCommand)
| FExn (e : exn).

Inductive event :=
| ELog (l : level) (msg : list piece)
| EGetEntityId (domain platform unique_id : string)
| EStatesGet (entity_id : string)
| ESetMode (c : WorkModeCommand)
| ERunCoroutineThreadsafe (c : WorkModeCommand)
| ECallSoonThreadsafe (signal : string) (c : WorkModeCommand)
| EDispatcherSend (signal : string) (c : WorkModeCommand)
| EExecutorJob
| EGetEnergyData
| EGetMetricsData
| ESetEnergyData (d : EnergyData)
| ESetMetricsData (d : MetricsData)
| EJobDone
| ESleep (seconds : Z)
| ENewInverter (cls : string)
| ENewClient (mqtt_username mqtt_password inverter_id : attr_ref)
| ESetCommandCallback (method : string)
| EConnect
| EDisconnect
| ECreateTask (coroutine : string).

(** Computations that emit events and may raise: a writer over the event
    trace on top of [outcome]. *)
Definition M (A : Type) : Type := list event * outcome A.

Definition ret {A} (a : A) : M A := ([], Ok a).
Definition raise {A} (e : exn) : M A := ([], Raise e).
Definition emit (e : event) : M unit := ([e], Ok tt).
Definition lift {A} (r : outcome A) : M A := ([], r).

Definition bind {A B} (m : M A) (f : A → M B) : M B :=
  match m with
  | (t, Ok a) => let '(t', r) := f a in (t ++ t', r)
  | (t, Raise e) => (t, Raise e)
  end.

Notation "'let*' x ':=' m 'in' k" := (bind m (λ x, k))
  (at level 10, x name, m at level 100, k at level 200,
   format "'let*'  x  ':='  m  'in' '//' k").
Notation "m >> k" := (bind m (λ _, k))
  (at level 60, k at level 200, right associativity,
   format "m  >> '//' k").

Definition trace {A} (m : M A) : list event := m.1.
Definition result {A} (m : M A) : outcome A := m.2.

Definition _LOGGER_debug (msg : list piece) : M unit := emit (ELog DEBUG msg).
Definition _LOGGER_info (msg : list piece) : M unit := emit (ELog INFO msg).
Definition _LOGGER_error (msg : list piece) : M unit := emit (ELog ERROR msg).

(** ** Attribute lookup on an instance *)

(** The names bound in the class body of [MQTTClient]. *)
Definition class_dict : list string :=
  ["__init__"; "initialize_client"; "start"; "stop"; "_on_command_received";
   "handle_inverter_control"; "update_data_loop"; "update_data"].

Definition no_attribute (type_name name : string) : exn :=
  mk_exn AttributeError
    ("'" +:+ type_name +:+ "' object has no attribute '" +:+ name +:+ "'").

(** [self.name]: the instance dictionary first, then the class; the class
    defines no [__getattr__], so anything else is an [AttributeError]. *)
Definition getattr (self : gmap string attr) (name : string) : outcome attr_ref :=
  match self !! name with
  | Some a => Ok (Bound a)
  | None =>
      if bool_decide (name ∈ class_dict) then Ok (Method name)
      else Raise (no_attribute "MQTTClient" name)
  end.

Definition type_name (a : attr_ref) : string :=
  match a with
  | Bound (AVal VNone) => "NoneType"
  | Bound (AVal (VBool _)) => "bool"
  | Bound (AVal (VInt _)) => "int"
  | Bound (AVal (VStr _)) => "str"
  | Bound AHass => "HomeAssistant"
  | Bound (AConfigEntry _) => "ConfigEntry"
  | Bound (AInverter cls) => cls
  | Bound AQilowattClient => "QilowattMQTTClient"
  | Bound AEntityRegistry => "EntityRegistry"
  | Method _ => "method"
  end.

Abbreviation instance := (gmap string attr).

(** Calling a name looked up on [self]: only a method of the class is
    callable. *)
Definition callable (a : attr_ref) : M unit :=
  match a with
  | Method _ => ret tt
  | a =>
      raise (mk_exn TypeError
               ("'" +:+ type_name a +:+ "' object is not callable"))
  end.

(** Methods that assign attributes thread the instance through: it is
    returned as the call leaves it, whether the call returns or raises. *)
Definition SM (A : Type) : Type := instance → instance * M A.

Definition sbind {A B} (m : SM A) (f : A → SM B) : SM B :=
  λ self,
    match m self with
    | (self', (t, Ok a)) =>
        let '(self'', (t', r)) := f a self' in (self'', (t ++ t', r))
    | (self', (t, Raise e)) => (self', (t, Raise e))
    end.

Notation "'let+' x ':=' m 'in' k" := (sbind m (λ x, k))
  (at level 10, x name, m at level 100, k at level 200,
   format "'let+'  x  ':='  m  'in' '//' k").
Notation "m >>+ k" := (sbind m (λ _, k))
  (at level 60, k at level 200, right associativity,
   format "m  >>+ '//' k").

(** An effect that leaves the instance alone, [self.name] and
    [self.name = a]. *)
Definition run {A} (m : M A) : SM A := λ self, (self, m).
Definition load (name : string) : SM attr_ref :=
  λ self, (self, lift (getattr self name)).
Definition store (name : string) (a : attr) : SM unit :=
  λ self, (<[name := a]> self, ret tt).

(** [d[key]] on a mapping: [KeyError] when the key is missing. *)
Definition subscript (d : gmap string value) (key : string) : outcome value :=
  match d !! key with
  | Some v => Ok v
  | None => Raise (mk_exn KeyError ("'" +:+ key +:+ "'"))
  end.

(** [str(a)] for an attribute interpolated into an f-string.  Objects other
    than scalars print by identity; the class never binds one to
    [inverter_id], the only attribute it formats. *)
Definition attr_str (a : attr_ref) : string :=
  match a with
  | Bound (AVal v) => py_str v
  | _ => "<" +:+ type_name a +:+ " object>"
  end.

(** ** The host side: entity registry, state machine, device adapter *)

Record Host := mk_host {
  entities : gmap (string * string * string) string;
  states : gmap string string;
  set_mode : WorkModeCommand → outcome unit
}.

(** What the device adapter and the messaging client do during one
    telemetry cycle, and whether the loop's task is cancelled while it is
    suspended at one of its two [await]s. *)
Inductive await_point := AtExecutorJob | AtSleep.

Global Instance await_point_eq_dec : EqDecision await_point.
Proof. solve_decision. Defined.

Record Cycle := mk_cycle {
  get_energy_data : outcome EnergyData;
  get_metrics_data : outcome MetricsData;
  set_energy_data : EnergyData → outcome unit;
  set_metrics_data : MetricsData → outcome unit;
  cancel : option await_point
}.

(** An inverter adapter class as [get_inverter_class] returns it: its name
    and what calling it on the entry does. *)
Record InverterClass := mk_class {
  class_name : string;
  new_inverter : ConfigEntry → outcome unit
}.

(** What the messaging client library does during one call of a lifecycle
    method: constructing [QilowattMQTTClient] and each of its methods may
    raise. *)
Record Link := mk_link {
  new_client : outcome unit;
  set_command_callback : outcome unit;
  connect : outcome unit;
  disconnect : outcome unit
}.

(** The host event loop as the messaging client's thread finds it. *)
Inductive loop_state := Running | Closed.

(** Work handed to the host event loop from another thread. *)
Inductive handle :=
| HControl (c : WorkModeCommand)
| HDispatch (signal : string) (c : WorkModeCommand).

(** Truth value of [async_get_entity_id]'s result, an optional string. *)
Definition truthy (o : option string) : bool :=
  match o with
  | None => false
  | Some s => negb (bool_decide (s = ""))
  end.

Section MQTTClient.

(** [DOMAIN] is imported from [.const] and [get_inverter_class] from
    [.inverter]; neither module is part of the verified file, so both are
    parameters of the development.  [get_inverter_class] yields the adapter
    class or raises for a model it does not know. *)
Variable DOMAIN : string.
Variable get_inverter_class : attr_ref → outcome InverterClass.

(** *** Construction and lifecycle *)

Definition __init__ (config_entry : ConfigEntry) : M instance :=
  let self : instance := ∅ in
  let self := <["hass" := AHass]> self in
  let self := <["config_entry" := AConfigEntry config_entry]> self in
  let* v := lift (subscript (data config_entry) "mqtt_username") in
  let self := <["mqtt_username" := AVal v]> self in
  let* v := lift (subscript (data config_entry) "mqtt_password") in
  let self := <["mqtt_password" := AVal v]> self in
  let* v := lift (subscript (data config_entry) "inverter_id") in
  let self := <["inverter_id" := AVal v]> self in
  let* v := lift (subscript (data config_entry) "inverter_model") in
  let self := <["inverter_model" := AVal v]> self in
  let self := <["qilowatt_client" := AVal VNone]> self in
  let* model := lift (getattr self "inverter_model") in
  let* inverter_class := lift (get_inverter_class model) in
  let* _ := lift (getattr self "hass") in
  emit (ENewInverter (class_name inverter_class)) >>
  lift (new_inverter inverter_class config_entry) >>
  let self := <["inverter" := AInverter (class_name inverter_class)]> self in
  ret self.

(** The constructor receives the three attributes as they are bound.  The
    client is bound to the instance before the callback is registered, so
    it stays bound when [set_command_callback] raises. *)
Definition initialize_client (link : Link) : SM unit :=
  run (_LOGGER_debug [Lit "Initializing Qilowatt MQTT client"]) >>+
  let+ u := load "mqtt_username" in
  let+ p := load "mqtt_password" in
  let+ i := load "inverter_id" in
  run (emit (ENewClient u p i) >> lift (new_client link)) >>+
  store "qilowatt_client" AQilowattClient >>+
  let+ client := load "qilowatt_client" in
  let+ _ := load "_on_command_received" in
  match client with
  | Bound AQilowattClient =>
      run (emit (ESetCommandCallback "_on_command_received") >>
           lift (set_command_callback link))
  | a => run (raise (no_attribute (type_name a) "set_command_callback"))
  end.

(** [start] is a coroutine of the host loop, which is therefore running
    while it executes: calling [update_data_loop] only creates the
    coroutine object and [create_task] queues it and returns. *)
Definition start (link : Link) : SM unit :=
  run (_LOGGER_debug [Lit "Starting Qilowatt MQTT client"]) >>+
  let+ client := load "qilowatt_client" in
  match client with
  | Bound (AVal VNone) =>
      let+ method := load "initialize_client" in
      run (callable method) >>+ initialize_client link
  | _ => run (ret tt)
  end >>+
  let+ client := load "qilowatt_client" in
  match client with
  | Bound AQilowattClient =>
      run (emit EConnect >> lift (connect link)) >>+
      let+ _ := load "hass" in
      let+ coro := load "update_data_loop" in
      run (callable coro) >>+
      run (emit (ECreateTask "update_data_loop"))
  | a => run (raise (no_attribute (type_name a) "connect"))
  end.

Definition is_true (a : attr_ref) : bool :=
  match a with
  | Bound (AVal VNone) => false
  | Bound (AVal (VBool b)) => b
  | Bound (AVal (VInt z)) => negb (Z.eqb z 0)
  | Bound (AVal (VStr s)) => negb (bool_decide (s = ""))
  | _ => true
  end.

Definition stop (link : Link) (self : instance) : M unit :=
  _LOGGER_debug [Lit "Stopping Qilowatt MQTT client"] >>
  let* client := lift (getattr self "qilowatt_client") in
  if is_true client then
    let* client := lift (getattr self "qilowatt_client") in
    match client with
    | Bound AQilowattClient => emit EDisconnect >> lift (disconnect link)
    | a => raise (no_attribute (type_name a) "disconnect")
    end
  else ret tt.

(** *** The control path *)

(** The dict literal of [handle_inverter_control], built in evaluation
    order. *)
Definition control_map : gmap string (list string) :=
  <["No control" := []]>
  (<["Only Fusebox" := ["fusebox"]]>
  (<["Only timer" := ["timer"]]>
  (<["Full control" := ["timer"; "fusebox"]]> ∅))).

(** [control_map.get(inverter_control_value, [])]. *)
Definition allowed_sources (inverter_control_value : string) : list string :=
  default [] (control_map !! inverter_control_value).

(** [source in allowed_sources]. *)
Definition source_allowed (inverter_control_value source : string) : bool :=
  bool_decide (source ∈ allowed_sources inverter_control_value).

Definition handle_inverter_control
    (self : instance) (host : Host) (command : WorkModeCommand) : M unit :=
  let* config_entry := lift (getattr self "config_entry") in
  let* select_unique_id :=
    match config_entry with
    | Bound (AConfigEntry c) => ret (entry_id c +:+ "_inverter_control")
    | a => raise (no_attribute (type_name a) "entry_id")
    end in
  let* entity_registry := lift (getattr self "entity_registry") in
  let* select_entity_id :=
    match entity_registry with
    | Bound AEntityRegistry =>
        emit (EGetEntityId "select" DOMAIN select_unique_id) >>
        ret (entities host !! ("select", DOMAIN, select_unique_id))
    | a => raise (no_attribute (type_name a) "async_get_entity_id")
    end in
  if negb (truthy select_entity_id) then
    _LOGGER_error [Lit "Inverter Control select entity not found."]
  else
    let select_entity_id := default "" select_entity_id in
    let* hass := lift (getattr self "hass") in
    let* select_state :=
      match hass with
      | Bound AHass =>
          emit (EStatesGet select_entity_id) >>
          ret (states host !! select_entity_id)
      | a => raise (no_attribute (type_name a) "states")
      end in
    match select_state with
    | None =>
        _LOGGER_error
          [Lit "Unable to get state of Inverter Control select entity."]
    | Some inverter_control_value =>
        _LOGGER_debug
          [Lit "Inverter Control value: "; FStr inverter_control_value] >>
        if negb (source_allowed inverter_control_value (_source command)) then
          _LOGGER_info
            [Lit "Source '"; FStr (_source command);
             Lit "' is not allowed by Inverter Control setting '";
             FStr inverter_control_value; Lit "'."]
        else
          let* inverter := lift (getattr self "inverter") in
          match inverter with
          | Bound (AInverter _) =>
              emit (ESetMode command) >> lift (set_mode host command)
          | a => raise (no_attribute (type_name a) "set_mode")
          end
    end.

(** *** The command callback and the host loop *)

Definition hass_loop (a : attr_ref) : M unit :=
  match a with
  | Bound AHass => ret tt
  | a => raise (no_attribute (type_name a) "loop")
  end.

(** Posting to the host loop from another thread, as
    [loop.call_soon_threadsafe] does and [asyncio.run_coroutine_threadsafe]
    through it: the work is appended to the loop's queue and the call
    returns at once, without running it.  A loop that has been closed
    refuses the call with [RuntimeError]. *)
Definition post_threadsafe (loop : loop_state) (e : event) : M unit :=
  match loop with
  | Running => emit e
  | Closed => raise (mk_exn RuntimeError "Event loop is closed")
  end.

(** Runs on the messaging client's thread.  Calling the [async def]
    method only creates the coroutine object. *)
Definition _on_command_received
    (self : instance) (loop : loop_state) (command : WorkModeCommand)
    : M unit :=
  _LOGGER_debug [Lit "Received WORKMODE command: "; FCommand command] >>
  let* coro := lift (getattr self "handle_inverter_control") in
  callable coro >>
  let* hass := lift (getattr self "hass") in
  hass_loop hass >>
  post_threadsafe loop (ERunCoroutineThreadsafe command) >>
  let* hass := lift (getattr self "hass") in
  hass_loop hass >>
  let* _ := lift (getattr self "hass") in
  let* inverter_id := lift (getattr self "inverter_id") in
  let signal := DOMAIN +:+ "_workmode_update_" +:+ attr_str inverter_id in
  post_threadsafe loop (ECallSoonThreadsafe signal command).

(** The work a trace of the callback has posted to the host loop. *)
Definition scheduled (t : list event) : list handle :=
  omap (λ e, match e with
             | ERunCoroutineThreadsafe c => Some (HControl c)
             | ECallSoonThreadsafe signal c => Some (HDispatch signal c)
             | _ => None
             end) t.

(** The host loop running one posted item.  An exception of the coroutine
    is stored in the future returned by [run_coroutine_threadsafe], which
    the callback drops; it does not reach the loop. *)
Definition run_handle (self : instance) (host : Host) (h : handle)
    : list event :=
  match h with
  | HControl c => trace (handle_inverter_control self host c)
  | HDispatch signal c => [EDispatcherSend signal c]
  end.

Definition run_ready (self : instance) (host : Host) (ready : list handle)
    : list event :=
  flat_map (run_handle self host) ready.

(** *** Telemetry *)

Definition update_data (self : instance) (cyc : Cycle) : M unit :=
  let* inverter := lift (getattr self "inverter") in
  let* energy_data :=
    match inverter with
    | Bound (AInverter _) => emit EGetEnergyData >> lift (get_energy_data cyc)
    | a => raise (no_attribute (type_name a) "get_energy_data")
    end in
  let* inverter := lift (getattr self "inverter") in
  let* metrics_data :=
    match inverter with
    | Bound (AInverter _) =>
        emit EGetMetricsData >> lift (get_metrics_data cyc)
    | a => raise (no_attribute (type_name a) "get_metrics_data")
    end in
  let* client := lift (getattr self "qilowatt_client") in
  match client with
  | Bound AQilowattClient =>
      emit (ESetEnergyData energy_data) >>
      lift (set_energy_data cyc energy_data)
  | a => raise (no_attribute (type_name a) "set_energy_data")
  end >>
  let* client := lift (getattr self "qilowatt_client") in
  match client with
  | Bound AQilowattClient =>
      emit (ESetMetricsData metrics_data) >>
      lift (set_metrics_data cyc metrics_data)
  | a => raise (no_attribute (type_name a) "set_metrics_data")
  end.

Definition cancelled_error : exn := mk_exn CancelledError "".

(** [await self.hass.async_add_executor_job(job)]: the job runs on a worker
    thread while the coroutine is suspended; the coroutine resumes with the
    job's result or exception once the job is done.  A cancellation that
    arrives meanwhile raises [CancelledError] in the coroutine and leaves
    the worker to finish on its own. *)
Definition async_add_executor_job (job : M unit) (cancelled : bool) : M unit :=
  emit EExecutorJob >>
  if cancelled then (trace job, Raise cancelled_error)
  else (trace job ++ [EJobDone], result job).

(** [await asyncio.sleep(seconds)]. *)
Definition asyncio_sleep (seconds : Z) (cancelled : bool) : M unit :=
  if cancelled then raise cancelled_error else emit (ESleep seconds).

(** [try: body / except Exception as e: handler(e)]. *)
Definition try_except (body : M unit) (handler : exn → M unit) : M unit :=
  match body with
  | (t, Raise e) => if is_Exception e then (t, Ok tt) >> handler e
                    else (t, Raise e)
  | ok => ok
  end.

(** One pass through the body of [while True]. *)
Definition loop_body (self : instance) (cyc : Cycle) : M unit :=
  try_except
    (let* hass := lift (getattr self "hass") in
     match hass with
     | Bound AHass => ret tt
     | a => raise (no_attribute (type_name a) "async_add_executor_job")
     end >>
     let* job := lift (getattr self "update_data") in
     async_add_executor_job (callable job >> update_data self cyc)
       (bool_decide (cancel cyc = Some AtExecutorJob)))
    (λ e, _LOGGER_error [Lit "Error updating data: "; FExn e]) >>
  asyncio_sleep 10 (bool_decide (cancel cyc = Some AtSleep)).

(** The loop, run against the behaviour of its environment during
    successive cycles.  [Ok] means every given cycle has been gone through
    and the loop is about to start the next one; [Raise] means the
    coroutine has ended with that exception. *)
Fixpoint update_data_loop (self : instance) (cycles : list Cycle) : M unit :=
  match cycles with
  | [] => ret tt
  | cyc :: cycles => loop_body self cyc >> update_data_loop self cycles
  end.

End MQTTClient.

(** ** Reachable instances *)

(** The instances the class itself produces: [__init__] followed by any
    number of calls of the two methods that assign attributes, each taken
    as the call leaves the instance, whether it returns or raises. *)
Inductive built (get_inverter_class : attr_ref → outcome InverterClass)
    (c : ConfigEntry) : instance → Prop :=
| built_init self :
    result (__init__ get_inverter_class c) = Ok self →
    built get_inverter_class c self
| built_initialize_client link self :
    built get_inverter_class c self →
    built get_inverter_class c (initialize_client link self).1
| built_start link self :
    built get_inverter_class c self →
    built get_inverter_class c (start link self).1.

(** What the control path needs and no method of the class does: the
    host's entity registry bound to the instance from outside. *)
Definition attach_registry (self : instance) : instance :=
  <["entity_registry" := AEntityRegistry]> self.

(** The attributes every built instance carries. *)
Record shaped (c : ConfigEntry) (self : instance) : Prop := mk_shaped {
  shaped_hass : self !! "hass" = Some AHass;
  shaped_entry : self !! "config_entry" = Some (AConfigEntry c);
  shaped_id :
    ∃ v, data c !! "inverter_id" = Some v ∧
         self !! "inverter_id" = Some (AVal v);
  shaped_username : ∃ v, self !! "mqtt_username" = Some (AVal v);
  shaped_password : ∃ v, self !! "mqtt_password" = Some (AVal v);
  shaped_inverter : ∃ cls, self !! "inverter" = Some (AInverter cls);
  shaped_client :
    self !! "qilowatt_client" = Some (AVal VNone) ∨
    self !! "qilowatt_client" = Some AQilowattClient;
  shaped_dom :
    ∀ name, is_Some (self !! name) →
      name ∈ ["hass"; "config_entry"; "mqtt_username"; "mqtt_password";
              "inverter_id"; "inverter_model"; "qilowatt_client"; "inverter"]
}.

(** ** Observers of traces *)

Definition is_set_mode (e : event) : bool :=
  match e with ESetMode _ => true | _ => false end.


Definition is_error_log (e : event) : bool :=
  match e with ELog ERROR _ => true | _ => false end.

(** Operations that belong to the host loop's thread. *)
Definition host_context_only (e : event) : bool :=
  match e with
  | EGetEntityId _ _ _ | EStatesGet _ | ESetMode _ | EDispatcherSend _ _ => true
  | _ => false
  end.

Definition is_read (e : event) : bool :=
  match e with EGetEnergyData | EGetMetricsData => true | _ => false end.

Definition is_publish (e : event) : bool :=
  match e with ESetEnergyData _ | ESetMetricsData _ => true | _ => false end.

Definition is_executor_job (e : event) : bool :=
  match e with EExecutorJob => true | _ => false end.

(** A cycle has published partly: the client has accepted the energy data
    and the cycle has not ended normally. *)
Definition partial_publish (cyc : Cycle) (m : M unit) : Prop :=
  ∃ d, ESetEnergyData d ∈ trace m ∧ set_energy_data cyc d = Ok tt ∧
       result m ≠ Ok tt.

Definition sleeps (t : list event) : list Z :=
  omap (λ e, match e with ESleep s => Some s | _ => None end) t.

(** A monitor for the telemetry loop's trace.  A pass is [Idle] until the
    job is handed to the executor, [InJob] until the job is done and
    [Handled] until the sleep has elapsed.  Device and client calls are
    accepted only inside a job, a job only when the previous pass has slept. *)
Inductive phase := Idle | InJob | Handled.

Fixpoint sequential (p : phase) (t : list event) : bool :=
  match t with
  | [] => true
  | e :: t =>
      match e, p with
      | EExecutorJob, Idle => sequential InJob t
      | EExecutorJob, _ => false
      | (EGetEnergyData | EGetMetricsData
         | ESetEnergyData _ | ESetMetricsData _), InJob => sequential InJob t
      | (EGetEnergyData | EGetMetricsData
         | ESetEnergyData _ | ESetMetricsData _), _ => false
      | EJobDone, InJob => sequential Handled t
      | EJobDone, _ => false
      | ESleep _, Handled => sequential Idle t
      | ESleep _, _ => false
      | _, _ => sequential p t
      end
  end.

(** The collaborators of a cycle fail with errors only, that is with
    instances of [Exception]. *)
Definition fails_with_errors {A} (r : outcome A) : Prop :=
  match r with Ok _ => True | Raise e => is_Exception e = true end.

Record raises_errors (cyc : Cycle) : Prop := mk_raises_errors {
  errors_energy : fails_with_errors (get_energy_data cyc);
  errors_metrics : fails_with_errors (get_metrics_data cyc);
  errors_set_energy : ∀ d, fails_with_errors (set_energy_data cyc d);
  errors_set_metrics : ∀ d, fails_with_errors (set_metrics_data cyc d)
}.

(** Modelled from the spec: the configuration surface's
    [pollIntervalSeconds] entry, 10 when the entry is absent.  The class
    reads no such entry. *)
Definition spec_pollIntervalSeconds (c : ConfigEntry) : Z :=
  match data c !! "pollIntervalSeconds" with
  | Some (VInt z) => z
  | _ => 10
  end.

(** ** Sample data *)

Definition sample_entry : ConfigEntry :=
  mk_entry "entry1"
    (<["mqtt_username" := VStr "user"]>
     (<["mqtt_password" := VStr "secret"]>
     (<["inverter_id" := VStr "inv42"]>
     (<["inverter_model" := VStr "Deye"]> ∅)))).

Definition sample_entry_30 : ConfigEntry :=
  mk_entry "entry1" (<["pollIntervalSeconds" := VInt 30]> (data sample_entry)).

Definition sample_classes (model : attr_ref) : outcome InverterClass :=
  Ok (mk_class "DeyeInverter" (λ _, Ok tt)).

Definition working_link : Link := mk_link (Ok tt) (Ok tt) (Ok tt) (Ok tt).

Definition refusing_link : Link :=
  mk_link (Ok tt) (Ok tt)
    (Raise (mk_exn RuntimeError "connection refused"))
    (Raise (mk_exn RuntimeError "not connected")).

Definition sample_self : instance :=
  <["inverter" := AInverter "DeyeInverter"]>
  (<["qilowatt_client" := AVal VNone]>
  (<["inverter_model" := AVal (VStr "Deye")]>
  (<["inverter_id" := AVal (VStr "inv42")]>
  (<["mqtt_password" := AVal (VStr "secret")]>
  (<["mqtt_username" := AVal (VStr "user")]>
  (<["config_entry" := AConfigEntry sample_entry]>
  (<["hass" := AHass]> ∅))))))).

Definition sample_self_30 : instance :=
  <["config_entry" := AConfigEntry sample_entry_30]> sample_self.

Definition sample_started : instance :=
  <["qilowatt_client" := AQilowattClient]> sample_self.

Definition full_control_host : Host :=
  mk_host
    (<[("select", "qilowatt", "entry1_inverter_control") :=
         "select.inverter_control"]> ∅)
    (<["select.inverter_control" := "Full control"]> ∅)
    (λ _, Ok tt).

Definition unregistered_host : Host :=
  mk_host ∅ (<["select.inverter_control" := "Full control"]> ∅) (λ _, Ok tt).

Definition stateless_host : Host :=
  mk_host
    (<[("select", "qilowatt", "entry1_inverter_control") :=
         "select.inverter_control"]> ∅)
    ∅
    (λ _, Ok tt).

Definition timer_command : WorkModeCommand := mk_command "timer" [].

Definition good_cycle : Cycle :=
  mk_cycle (Ok (mk_energy [1%Z])) (Ok (mk_metrics [2%Z]))
    (λ _, Ok tt) (λ _, Ok tt) None.

Definition failing_cycle : Cycle :=
  mk_cycle (Raise (mk_exn RuntimeError "device unreachable"))
    (Ok (mk_metrics [2%Z])) (λ _, Ok tt) (λ _, Ok tt) None.

(** ** Further observers and sample data *)

(** The keys [__init__] subscripts in the entry's data, in the order of the
    assignments. *)
Definition required_keys : list string :=
  ["mqtt_username"; "mqtt_password"; "inverter_id"; "inverter_model"].

Definition raised {A} (r : outcome A) : bool :=
  match r with Raise _ => true | Ok _ => false end.

Definition sample_entry_b : ConfigEntry :=
  mk_entry "entry2"
    (<["mqtt_username" := VStr "user"]>
     (<["mqtt_password" := VStr "secret"]>
     (<["inverter_id" := VStr "inv43"]>
     (<["inverter_model" := VStr "Deye"]> ∅)))).

Definition sample_self_b : instance :=
  <["inverter" := AInverter "DeyeInverter"]>
  (<["qilowatt_client" := AVal VNone]>
  (<["inverter_model" := AVal (VStr "Deye")]>
  (<["inverter_id" := AVal (VStr "inv43")]>
  (<["mqtt_password" := AVal (VStr "secret")]>
  (<["mqtt_username" := AVal (VStr "user")]>
  (<["config_entry" := AConfigEntry sample_entry_b]>
  (<["hass" := AHass]> ∅))))))).

Definition failing_device_host : Host :=
  mk_host
    (<[("select", "qilowatt", "entry1_inverter_control") :=
         "select.inverter_control"]> ∅)
    (<["select.inverter_control" := "Full control"]> ∅)
    (λ _, Raise (mk_exn RuntimeError "inverter offline")).

Definition fatal_cycle : Cycle :=
  mk_cycle (Raise (mk_exn SystemExit "")) (Ok (mk_metrics [2%Z]))
    (λ _, Ok tt) (λ _, Ok tt) None.

Definition half_published_cycle : Cycle :=
  mk_cycle (Ok (mk_energy [1%Z])) (Ok (mk_metrics [2%Z]))
    (λ _, Ok tt) (λ _, Raise (mk_exn RuntimeError "client stopped")) None.

Definition cancelled_cycle : Cycle :=
  mk_cycle (Ok (mk_energy [1%Z])) (Ok (mk_metrics [2%Z]))
    (λ _, Ok tt) (λ _, Ok tt) (Some AtSleep).

(** ** Basic facts about the monad and attribute lookup *)

Lemma trace_bind {A B} (m : M A) (f : A → M B) :
  trace (bind m f) =
  trace m ++ match result m with Ok a => trace (f a) | Raise _ => [] end.
Proof.
  destruct m as [t [a|e]]; simpl.
  - destruct (f a) as [t' r]; reflexivity.
  - by rewrite app_nil_r.
Qed.

Lemma result_bind {A B} (m : M A) (f : A → M B) :
  result (bind m f) =
  match result m with Ok a => result (f a) | Raise e => Raise e end.
Proof.
  destruct m as [t [a|e]]; simpl; [|done].
  destruct (f a) as [t' r]; reflexivity.
Qed.

Lemma bind_ret_l {A B} (a : A) (f : A → M B) : bind (ret a) f = f a.
Proof. unfold bind, ret. by destruct (f a). Qed.

Lemma bind_lift_Ok {A B} (a : A) (f : A → M B) : bind (lift (Ok a)) f = f a.
Proof. apply bind_ret_l. Qed.

Lemma sbind_run {A B} (m : M A) (f : A → SM B) (self : instance) :
  sbind (run m) f self =
  match m with
  | (t, Ok a) => let '(self', (t', r)) := f a self in (self', (t ++ t', r))
  | (t, Raise e) => (self, (t, Raise e))
  end.
Proof. reflexivity. Qed.

Lemma sbind_load {B} (f : attr_ref → SM B) (self : instance) name a :
  getattr self name = Ok a → sbind (load name) f self = f a self.
Proof.
  unfold sbind, load, lift. intros ->. by destruct (f a self) as [s' [t' r]].
Qed.

Lemma sbind_store {B} (f : unit → SM B) (self : instance) name a :
  sbind (store name a) f self = f tt (<[name := a]> self).
Proof.
  unfold sbind, store, ret. by destruct (f tt _) as [s' [t' r]].
Qed.

Lemma getattr_bound (self : instance) name a :
  self !! name = Some a → getattr self name = Ok (Bound a).
Proof. unfold getattr. by intros ->. Qed.

Lemma getattr_method (self : instance) name :
  self !! name = None → name ∈ class_dict → getattr self name = Ok (Method name).
Proof.
  unfold getattr. intros -> Hin. by rewrite bool_decide_eq_true_2.
Qed.

Lemma getattr_missing (self : instance) name :
  self !! name = None → name ∉ class_dict →
  getattr self name = Raise (no_attribute "MQTTClient" name).
Proof.
  unfold getattr. intros -> Hin. by rewrite bool_decide_eq_false_2.
Qed.

(** Closed equations between evaluated terms. *)
Ltac by_compute :=
  match goal with |- _ = ?r => vm_cast_no_check (eq_refl r) end.

(** Membership of a concrete string in a concrete list. *)
Ltac in_list := apply list_elem_of_In; simpl; tauto.

Lemma attribute_not_method name :
  name ∈ ["hass"; "config_entry"; "mqtt_username"; "mqtt_password";
          "inverter_id"; "inverter_model"; "qilowatt_client"; "inverter"] →
  ¬ name ∈ class_dict ∧ name ≠ "entity_registry".
Proof.
  intros Hin. apply list_elem_of_In in Hin. simpl in Hin.
  split.
  - intros Hc. apply list_elem_of_In in Hc. simpl in Hc.
    repeat (destruct Hin as [<-|Hin];
            [repeat (destruct Hc as [Hc|Hc]; [discriminate Hc|]); done|]).
    done.
  - intros ->.
    repeat (destruct Hin as [Hin|Hin]; [discriminate Hin|]). done.
Qed.

Lemma Forall_trace_bind {A B} (P : event → Prop) (m : M A) (f : A → M B) :
  Forall P (trace m) →
  (∀ a, result m = Ok a → Forall P (trace (f a))) →
  Forall P (trace (bind m f)).
Proof.
  intros Hm Hf. rewrite trace_bind. apply Forall_app. split; [done|].
  destruct (result m); [by apply Hf | constructor].
Qed.

Lemma filter_nil_Forall (p : event → bool) (t : list event) :
  Forall (λ e, p e = false) t → List.filter p t = [].
Proof.
  induction 1 as [|e t He _ IH]; simpl; [done|]. by rewrite He.
Qed.

(** Every event of a computation satisfies a property that holds of each
    event it can emit: one case per branch of the code. *)
Ltac trace_forall :=
  repeat first
    [ apply Forall_nil_2
    | apply Forall_cons_2; [reflexivity|]
    | apply Forall_trace_bind; [|intros ? ?]
    | match goal with
      | |- Forall _ (trace (match ?x with _ => _ end)) => destruct x
      | |- Forall _ (trace (if ?b then _ else _)) => destruct b
      end
    | progress cbn [trace fst lift raise ret emit
                    _LOGGER_debug _LOGGER_info _LOGGER_error] ].

Section Properties.

Variable DOMAIN : string.
Variable get_inverter_class : attr_ref → outcome InverterClass.

Lemma init_shaped c self :
  result (__init__ get_inverter_class c) = Ok self → shaped c self.
Proof.
  unfold __init__, subscript.
  destruct (data c !! "mqtt_username") as [u|] eqn:Hu; [|done].
  destruct (data c !! "mqtt_password") as [p|] eqn:Hp; [|done].
  destruct (data c !! "inverter_id") as [i|] eqn:Hi; [|done].
  destruct (data c !! "inverter_model") as [m|] eqn:Hm; [|done].
  cbn.
  erewrite getattr_bound by (vm_compute; reflexivity).
  destruct (get_inverter_class _) as [cls|] eqn:Hcls; [|done].
  erewrite getattr_bound by (vm_compute; reflexivity).
  cbn. destruct (new_inverter cls c) as [[]|]; [|done].
  cbn. intros [= <-].
  split.
  - vm_compute; reflexivity.
  - reflexivity.
  - exists i; split; [done | reflexivity].
  - eexists; reflexivity.
  - eexists; reflexivity.
  - eexists; reflexivity.
  - left; reflexivity.
  - intros name [a Ha].
    repeat match type of Ha with
    | <[?k := _]> _ !! name = Some _ =>
        let Hne := fresh "Hne" in
        destruct (decide (k = name)) as [<-|Hne];
          [in_list | rewrite lookup_insert_ne in Ha by exact Hne]
    end.
    by rewrite lookup_empty in Ha.
Qed.

Lemma shaped_no_method c self name :
  shaped c self → name ∈ class_dict → self !! name = None.
Proof.
  intros Hs Hin. destruct (self !! name) eqn:Hl; [|done].
  assert (Hdom := shaped_dom _ _ Hs name (mk_is_Some _ _ Hl)).
  by destruct (attribute_not_method _ Hdom).
Qed.

Lemma shaped_no_registry c self :
  shaped c self → self !! "entity_registry" = None.
Proof.
  intros Hs. destruct (self !! "entity_registry") eqn:Hl; [|done].
  assert (Hdom := shaped_dom _ _ Hs _ (mk_is_Some _ _ Hl)).
  by destruct (attribute_not_method _ Hdom).
Qed.

Lemma shaped_set_client c self :
  shaped c self → shaped c (<["qilowatt_client" := AQilowattClient]> self).
Proof.
  intros [Hh He (v & Hv & Hi) (u & Hu) (p & Hp) (cls & Hc) Hq Hd].
  split; rewrite ?lookup_insert_ne by done; eauto.
  - right. apply lookup_insert_eq.
  - intros name [a Ha].
    destruct (decide ("qilowatt_client" = name)) as [<-|Hne]; [in_list|].
    rewrite lookup_insert_ne in Ha by exact Hne. eauto.
Qed.

(** [initialize_client] on an instance of the expected shape, by the
    outcome of the constructor and of [set_command_callback]. *)
Lemma initialize_client_shaped c self link u p i :
  shaped c self →
  self !! "mqtt_username" = Some u →
  self !! "mqtt_password" = Some p →
  self !! "inverter_id" = Some i →
  initialize_client link self =
  match new_client link with
  | Raise e =>
      (self,
       ([ELog DEBUG [Lit "Initializing Qilowatt MQTT client"];
         ENewClient (Bound u) (Bound p) (Bound i)],
        Raise e))
  | Ok _ =>
      (<["qilowatt_client" := AQilowattClient]> self,
       ([ELog DEBUG [Lit "Initializing Qilowatt MQTT client"];
         ENewClient (Bound u) (Bound p) (Bound i);
         ESetCommandCallback "_on_command_received"],
        set_command_callback link))
  end.
Proof.
  intros Hs Hu Hp Hi. unfold initialize_client.
  rewrite sbind_run. cbn [_LOGGER_debug emit].
  rewrite (sbind_load _ _ _ _ (getattr_bound _ _ _ Hu)).
  rewrite (sbind_load _ _ _ _ (getattr_bound _ _ _ Hp)).
  rewrite (sbind_load _ _ _ _ (getattr_bound _ _ _ Hi)).
  rewrite sbind_run. cbn [bind emit lift].
  destruct (new_client link) as [[]|e]; cbv beta iota; [|done].
  rewrite sbind_store.
  rewrite (sbind_load _ _ "qilowatt_client" (Bound AQilowattClient))
    by (apply getattr_bound, lookup_insert_eq).
  rewrite (sbind_load _ _ "_on_command_received"
             (Method "_on_command_received")).
  - unfold run. cbn. by destruct (set_command_callback link).
  - apply getattr_method; [|unfold class_dict; in_list].
    rewrite lookup_insert_ne by done.
    eapply shaped_no_method; [done | unfold class_dict; in_list].
Qed.

Lemma initialize_client_leaves c self link :
  shaped c self →
  (initialize_client link self).1 = self ∨
  (initialize_client link self).1 = <["qilowatt_client" := AQilowattClient]> self.
Proof.
  intros Hs.
  destruct (shaped_username _ _ Hs) as (u & Hu).
  destruct (shaped_password _ _ Hs) as (p & Hp).
  destruct (shaped_id _ _ Hs) as (i & _ & Hi).
  rewrite (initialize_client_shaped c self link _ _ _ Hs Hu Hp Hi).
  destruct (new_client link); [by right | by left].
Qed.

(** [start] on an instance whose client is already bound. *)
Lemma start_initialized c self link :
  shaped c self →
  self !! "qilowatt_client" = Some AQilowattClient →
  start link self =
  (self,
   match connect link with
   | Ok _ =>
       ([ELog DEBUG [Lit "Starting Qilowatt MQTT client"]; EConnect;
         ECreateTask "update_data_loop"],
        Ok tt)
   | Raise e =>
       ([ELog DEBUG [Lit "Starting Qilowatt MQTT client"]; EConnect], Raise e)
   end).
Proof.
  intros Hs Hq. unfold start.
  rewrite sbind_run. cbn [_LOGGER_debug emit].
  rewrite (sbind_load _ _ _ _ (getattr_bound _ _ _ Hq)).
  rewrite sbind_run. cbn [ret].
  rewrite (sbind_load _ _ _ _ (getattr_bound _ _ _ Hq)).
  rewrite sbind_run. cbn [bind emit lift].
  destruct (connect link) as [[]|e]; cbv beta iota; [|done].
  rewrite (sbind_load _ _ _ _ (getattr_bound _ _ _ (shaped_hass _ _ Hs))).
  rewrite (sbind_load _ _ "update_data_loop" (Method "update_data_loop")).
  - reflexivity.
  - apply getattr_method; [|unfold class_dict; in_list].
    eapply shaped_no_method; [done | unfold class_dict; in_list].
Qed.

(** [start] on an instance whose client is still [None]. *)
Lemma start_uninitialized c self link u p i :
  shaped c self →
  self !! "mqtt_username" = Some u →
  self !! "mqtt_password" = Some p →
  self !! "inverter_id" = Some i →
  self !! "qilowatt_client" = Some (AVal VNone) →
  start link self =
  let created :=
    [ELog DEBUG [Lit "Starting Qilowatt MQTT client"];
     ELog DEBUG [Lit "Initializing Qilowatt MQTT client"];
     ENewClient (Bound u) (Bound p) (Bound i)] in
  let started := <["qilowatt_client" := AQilowattClient]> self in
  match new_client link with
  | Raise e => (self, (created, Raise e))
  | Ok _ =>
      match set_command_callback link with
      | Raise e =>
          (started,
           (created ++ [ESetCommandCallback "_on_command_received"], Raise e))
      | Ok _ =>
          match connect link with
          | Raise e =>
              (started,
               (created ++
                [ESetCommandCallback "_on_command_received"; EConnect],
                Raise e))
          | Ok _ =>
              (started,
               (created ++
                [ESetCommandCallback "_on_command_received"; EConnect;
                 ECreateTask "update_data_loop"],
                Ok tt))
          end
      end
  end.
Proof.
  intros Hs Hu Hp Hi Hq. unfold start.
  rewrite sbind_run. cbn [_LOGGER_debug emit].
  rewrite (sbind_load _ _ _ _ (getattr_bound _ _ _ Hq)).
  unfold sbind at 1.
  rewrite (sbind_load _ _ "initialize_client" (Method "initialize_client"))
    by (apply getattr_method; [|unfold class_dict; in_list];
        eapply shaped_no_method; [done | unfold class_dict; in_list]).
  rewrite sbind_run. unfold callable, ret.
  rewrite (initialize_client_shaped c self link u p i Hs Hu Hp Hi).
  destruct (new_client link) as [[]|e]; cbn; [|done].
  destruct (set_command_callback link) as [[]|e]; cbn; [|done].
  rewrite (getattr_bound _ "qilowatt_client" AQilowattClient)
    by apply lookup_insert_eq.
  cbn. destruct (connect link) as [[]|e]; cbn; [|done].
  rewrite (getattr_bound _ "hass" AHass)
    by (rewrite lookup_insert_ne by done; apply Hs).
  rewrite (getattr_method _ "update_data_loop")
    by first [rewrite lookup_insert_ne by done;
              by eapply shaped_no_method; [|unfold class_dict; in_list]
             | unfold class_dict; in_list].
  reflexivity.
Qed.

Lemma start_leaves c self link :
  shaped c self →
  (start link self).1 = self ∨
  (start link self).1 = <["qilowatt_client" := AQilowattClient]> self.
Proof.
  intros Hs.
  destruct (shaped_username _ _ Hs) as (u & Hu).
  destruct (shaped_password _ _ Hs) as (p & Hp).
  destruct (shaped_id _ _ Hs) as (i & _ & Hi).
  destruct (shaped_client _ _ Hs) as [Hq|Hq].
  - rewrite (start_uninitialized c self link _ _ _ Hs Hu Hp Hi Hq). cbn zeta.
    destruct (new_client link); [|by left].
    destruct (set_command_callback link); [|by right].
    destruct (connect link); by right.
  - rewrite (start_initialized c self link Hs Hq). by left.
Qed.

Lemma built_shaped c self : built get_inverter_class c self → shaped c self.
Proof.
  induction 1 as [self Hi | link self _ IH | link self _ IH].
  - by apply init_shaped.
  - destruct (initialize_client_leaves c self link IH) as [->| ->]; [done|].
    by apply shaped_set_client.
  - destruct (start_leaves c self link IH) as [->| ->]; [done|].
    by apply shaped_set_client.
Qed.

(** ** The control path *)

Lemma handle_inverter_control_shaped c self host command :
  shaped c self →
  handle_inverter_control DOMAIN self host command =
  ([], Raise (no_attribute "MQTTClient" "entity_registry")).
Proof.
  intros Hs. unfold handle_inverter_control.
  rewrite (getattr_bound _ _ _ (shaped_entry _ _ Hs)). cbn.
  rewrite getattr_missing; [done | by eapply shaped_no_registry |].
  intros Hin. apply list_elem_of_In in Hin. simpl in Hin.
  repeat (destruct Hin as [Hin|Hin]; [discriminate Hin|]). done.
Qed.

(** C3: [entity_registry] is bound by no method of the class, so on every
    instance the class builds the control path raises [AttributeError] at
    its first use of the attribute, before any registry or state lookup, any
    authorization step and any [set_mode] call. *)
Theorem control_path_raises_attribute_error c self host command :
  built get_inverter_class c self →
  self !! "entity_registry" = None ∧
  handle_inverter_control DOMAIN self host command =
    ([], Raise (mk_exn AttributeError
                  "'MQTTClient' object has no attribute 'entity_registry'")).
Proof.
  intros Hb. apply built_shaped in Hb. split.
  - by eapply shaped_no_registry.
  - by erewrite handle_inverter_control_shaped.
Qed.

Lemma control_map_lookup v :
  control_map !! v =
  if decide (v = "No control") then Some []
  else if decide (v = "Only Fusebox") then Some ["fusebox"]
  else if decide (v = "Only timer") then Some ["timer"]
  else if decide (v = "Full control") then Some ["timer"; "fusebox"]
  else None.
Proof.
  unfold control_map.
  repeat (case_decide;
          [subst v; reflexivity | rewrite lookup_insert_ne by congruence]).
  apply lookup_empty.
Qed.

(** C2: the decision taken by the control path allows a source exactly when
    it is listed in the table's entry for the setting value; a value that
    is not a key of the table resolves to the empty list.  "Full control"
    allows exactly "timer" and "fusebox", "No control" allows nothing. *)
Theorem authorization_decision :
  (∀ v o, source_allowed v o = true ↔ o ∈ default [] (control_map !! v)) ∧
  (∀ v o, source_allowed v o = true ↔
     (v = "Full control" ∧ (o = "timer" ∨ o = "fusebox")) ∨
     (v = "Only timer" ∧ o = "timer") ∨
     (v = "Only Fusebox" ∧ o = "fusebox")) ∧
  (∀ v, v ∈ ["Full control"; "Only timer"; "Only Fusebox"; "No control"] ∨
        (control_map !! v = None ∧ ∀ o, source_allowed v o = false)) ∧
  (∀ o, source_allowed "Full control" o = true ↔ o = "timer" ∨ o = "fusebox") ∧
  (∀ o, source_allowed "No control" o = false).
Proof.
  assert (Hchar : ∀ v o, source_allowed v o = true ↔
     (v = "Full control" ∧ (o = "timer" ∨ o = "fusebox")) ∨
     (v = "Only timer" ∧ o = "timer") ∨
     (v = "Only Fusebox" ∧ o = "fusebox")).
  { intros v o. unfold source_allowed, allowed_sources.
    rewrite bool_decide_eq_true, control_map_lookup.
    repeat case_decide; subst; simpl;
      rewrite ?elem_of_cons, ?elem_of_nil; intuition congruence. }
  split; [|split; [exact Hchar|split; [|split]]].
  - intros v o. unfold source_allowed, allowed_sources.
    apply bool_decide_eq_true.
  - intros v. rewrite control_map_lookup.
    repeat (case_decide; [left; subst v; in_list|]).
    right. split; [done|]. intros o.
    destruct (source_allowed v o) eqn:Ho; [|done].
    apply Hchar in Ho. intuition congruence.
  - intros o. rewrite Hchar. intuition congruence.
  - intros o. destruct (source_allowed "No control" o) eqn:Ho; [|done].
    apply Hchar in Ho. intuition congruence.
Qed.


(** The control path on an instance that has the entity registry bound:
    every branch of the code below the registry lookup. *)
Lemma handle_inverter_control_attached c self host command :
  shaped c self →
  handle_inverter_control DOMAIN (attach_registry self) host command =
  let unique_id := entry_id c +:+ "_inverter_control" in
  let lookup := EGetEntityId "select" DOMAIN unique_id in
  let not_found :=
    ([lookup; ELog ERROR [Lit "Inverter Control select entity not found."]],
     Ok tt) in
  match entities host !! ("select", DOMAIN, unique_id) with
  | None => not_found
  | Some entity_id =>
      if bool_decide (entity_id = "") then not_found
      else
        match states host !! entity_id with
        | None =>
            ([lookup; EStatesGet entity_id;
              ELog ERROR
                [Lit "Unable to get state of Inverter Control select entity."]],
             Ok tt)
        | Some v =>
            let seen :=
              [lookup; EStatesGet entity_id;
               ELog DEBUG [Lit "Inverter Control value: "; FStr v]] in
            if source_allowed v (_source command)
            then (seen ++ [ESetMode command], set_mode host command)
            else
              (seen ++
               [ELog INFO
                  [Lit "Source '"; FStr (_source command);
                   Lit "' is not allowed by Inverter Control setting '";
                   FStr v; Lit "'."]],
               Ok tt)
        end
  end.
Proof.
  intros Hs. unfold handle_inverter_control, attach_registry.
  destruct (shaped_inverter _ _ Hs) as (cls & Hinv).
  rewrite (getattr_bound _ "config_entry" (AConfigEntry c))
    by (rewrite lookup_insert_ne by done; apply Hs).
  rewrite (getattr_bound _ "entity_registry" AEntityRegistry)
    by apply lookup_insert_eq.
  rewrite (getattr_bound _ "hass" AHass)
    by (rewrite lookup_insert_ne by done; apply Hs).
  rewrite (getattr_bound _ "inverter" (AInverter cls))
    by (by rewrite lookup_insert_ne by done).
  cbn.
  destruct (entities host !! _) as [entity_id|]; cbn; [|done].
  case_bool_decide; cbn; [done|].
  destruct (states host !! entity_id) as [v|]; cbn; [|done].
  destruct (source_allowed v (_source command)); cbn; [|done].
  by destruct (set_mode host command).
Qed.

(** ** The command callback *)

Lemma _on_command_received_run self loop command v :
  self !! "handle_inverter_control" = None →
  self !! "hass" = Some AHass →
  self !! "inverter_id" = Some (AVal v) →
  _on_command_received DOMAIN self loop command =
  match loop with
  | Running =>
      ([ELog DEBUG [Lit "Received WORKMODE command: "; FCommand command];
        ERunCoroutineThreadsafe command;
        ECallSoonThreadsafe (DOMAIN +:+ "_workmode_update_" +:+ py_str v)
          command],
       Ok tt)
  | Closed =>
      ([ELog DEBUG [Lit "Received WORKMODE command: "; FCommand command]],
       Raise (mk_exn RuntimeError "Event loop is closed"))
  end.
Proof.
  intros Hm Hh Hi. unfold _on_command_received.
  rewrite (getattr_method _ _ Hm) by (unfold class_dict; in_list).
  rewrite (getattr_bound _ _ _ Hh), (getattr_bound _ _ _ Hi).
  by destruct loop.
Qed.

Lemma _on_command_received_built c self self' command :
  built get_inverter_class c self →
  self' = self ∨ self' = attach_registry self →
  ∃ id, data c !! "inverter_id" = Some id ∧
    _on_command_received DOMAIN self' Running command =
    ([ELog DEBUG [Lit "Received WORKMODE command: "; FCommand command];
      ERunCoroutineThreadsafe command;
      ECallSoonThreadsafe (DOMAIN +:+ "_workmode_update_" +:+ py_str id)
        command],
     Ok tt) ∧
    _on_command_received DOMAIN self' Closed command =
    ([ELog DEBUG [Lit "Received WORKMODE command: "; FCommand command]],
     Raise (mk_exn RuntimeError "Event loop is closed")).
Proof.
  intros Hb Hself. apply built_shaped in Hb.
  destruct (shaped_id _ _ Hb) as (id & Hid & Hattr).
  exists id. split; [done|].
  assert (Hm : self !! "handle_inverter_control" = None)
    by (eapply shaped_no_method; [done | unfold class_dict; in_list]).
  split; destruct Hself as [->| ->];
    rewrite (_on_command_received_run _ _ _ id); try reflexivity;
    unfold attach_registry; rewrite ?lookup_insert_ne by done;
    first [done | apply Hb].
Qed.


(** C9 (amended): the callback never runs a host-context operation on
    its own thread and never waits: it logs and posts.  On a running loop
    it posts the control coroutine and the dispatcher call and returns
    normally, and what the control path later raises stays with the posted
    work.  It has no handler of its own: on a closed loop the first posting
    call raises [RuntimeError], which reaches the caller, and nothing is
    posted. *)
Theorem callback_posts_and_returns c self self' loop command :
  built get_inverter_class c self →
  self' = self ∨ self' = attach_registry self →
  Forall (λ e, host_context_only e = false)
    (trace (_on_command_received DOMAIN self' loop command)) ∧
  (∀ host,
     result (handle_inverter_control DOMAIN self host command) =
     Raise (no_attribute "MQTTClient" "entity_registry")) ∧
  match loop with
  | Running =>
      result (_on_command_received DOMAIN self' loop command) = Ok tt ∧
      ∃ signal,
        scheduled (trace (_on_command_received DOMAIN self' loop command)) =
        [HControl command; HDispatch signal command]
  | Closed =>
      result (_on_command_received DOMAIN self' loop command) =
        Raise (mk_exn RuntimeError "Event loop is closed") ∧
      scheduled (trace (_on_command_received DOMAIN self' loop command)) = []
  end.
Proof.
  intros Hb Hself.
  destruct (_on_command_received_built c self self' command Hb Hself)
    as (id & Hid & Hrun & Hclosed).
  split; [|split].
  - destruct loop; [rewrite Hrun | rewrite Hclosed];
      repeat (apply Forall_cons_2; [reflexivity|]); apply Forall_nil_2.
  - intros host. apply built_shaped in Hb.
    by rewrite (handle_inverter_control_shaped c).
  - destruct loop; [rewrite Hrun | by rewrite Hclosed].
    split; [reflexivity|].
    by exists (DOMAIN +:+ "_workmode_update_" +:+ py_str id).
Qed.

(** ** Telemetry *)

Lemma fails_bind {A B} (m : M A) (f : A → M B) :
  fails_with_errors (result m) →
  (∀ a, fails_with_errors (result (f a))) →
  fails_with_errors (result (bind m f)).
Proof.
  intros Hm Hf. rewrite result_bind. destruct (result m); [apply Hf | done].
Qed.

Lemma getattr_fails self name : fails_with_errors (getattr self name).
Proof.
  unfold getattr. destruct (self !! name); [done|].
  by case_bool_decide.
Qed.

Lemma update_data_fails self cyc :
  raises_errors cyc → fails_with_errors (result (update_data self cyc)).
Proof.
  intros [He Hm Hse Hsm]. unfold update_data.
  repeat first
    [ apply fails_bind; [|intros ?]
    | apply getattr_fails | apply He | apply Hm | apply Hse | apply Hsm
    | match goal with
      | |- fails_with_errors (result (match ?x with _ => _ end)) => destruct x
      end
    | done ].
Qed.

(** One pass of the loop on a built instance, branch by branch. *)
Lemma loop_body_shaped c self cyc :
  shaped c self →
  loop_body self cyc =
  let job := update_data self cyc in
  let sleep := asyncio_sleep 10 (bool_decide (cancel cyc = Some AtSleep)) in
  if bool_decide (cancel cyc = Some AtExecutorJob)
  then (EExecutorJob :: trace job, Raise cancelled_error)
  else
    match result job with
    | Ok _ => (EExecutorJob :: trace job ++ [EJobDone], Ok tt) >> sleep
    | Raise e =>
        if is_Exception e
        then
          (EExecutorJob :: trace job ++
             [EJobDone; ELog ERROR [Lit "Error updating data: "; FExn e]],
           Ok tt) >> sleep
        else (EExecutorJob :: trace job ++ [EJobDone], Raise e)
    end.
Proof.
  intros Hs. unfold loop_body.
  rewrite (getattr_bound _ _ _ (shaped_hass _ _ Hs)).
  rewrite (getattr_method _ "update_data")
    by first [by eapply shaped_no_method; [|unfold class_dict; in_list]
             | unfold class_dict; in_list].
  unfold callable. repeat (rewrite bind_lift_Ok || rewrite bind_ret_l).
  unfold async_add_executor_job.
  destruct (update_data self cyc) as [tj [[]|e]]; cbn;
    case_bool_decide; cbn; [done| |done|].
  - by case_bool_decide; cbn; rewrite <- ?app_assoc.
  - destruct (is_Exception e); cbn; [|done].
    by case_bool_decide; cbn; rewrite <- ?app_assoc.
Qed.

Lemma Forall_trace_try_except (P : event → Prop) body handler :
  Forall P (trace body) →
  (∀ e, Forall P (trace (handler e))) →
  Forall P (trace (try_except body handler)).
Proof.
  intros Hb Hh. unfold try_except.
  destruct body as [t [[]|e]]; [done|].
  destruct (is_Exception e); [|done].
  apply (Forall_trace_bind P (t, Ok tt)); [done | intros; apply Hh].
Qed.

Lemma Forall_trace_executor (P : event → Prop) job cancelled :
  P EExecutorJob → P EJobDone → Forall P (trace job) →
  Forall P (trace (async_add_executor_job job cancelled)).
Proof.
  intros Hs Hd Hj. unfold async_add_executor_job.
  apply Forall_trace_bind; [by repeat constructor | intros _ _].
  destruct cancelled; cbn [trace fst]; [done|].
  apply Forall_app. split; [done | by repeat constructor].
Qed.

Lemma loop_body_events (P : event → Prop) self cyc :
  P EExecutorJob → P EJobDone → P (ESleep 10) →
  (∀ e, P (ELog ERROR [Lit "Error updating data: "; FExn e])) →
  Forall P (trace (update_data self cyc)) →
  Forall P (trace (loop_body self cyc)).
Proof.
  intros Hs Hd Hz Hl Hj. unfold loop_body.
  apply Forall_trace_bind.
  - apply Forall_trace_try_except.
    + apply Forall_trace_bind; [constructor | intros hass _].
      apply Forall_trace_bind; [destruct hass as [[]|]; constructor|].
      intros _ _. apply Forall_trace_bind; [constructor | intros job _].
      apply Forall_trace_executor; [done | done |].
      apply Forall_trace_bind; [destruct job; constructor | by intros].
    + intros e. by repeat constructor.
  - intros _ _. unfold asyncio_sleep. case_bool_decide; by repeat constructor.
Qed.

Lemma update_data_events self cyc :
  Forall (λ e, is_read e || is_publish e = true) (trace (update_data self cyc)).
Proof. unfold update_data. trace_forall. Qed.

(** C10 (amended): within a cycle both reads come first.  Either nothing
    is handed to the messaging client, or both reads have returned and the
    trace is the two reads followed by publishes only.  When a read raises,
    neither [update_data] nor the pass of the loop around it hands over
    anything.  A partial publish comes from a publish failure only: both
    reads have returned and [set_metrics_data] has raised. *)
Theorem reads_complete_before_publish self cyc :
  (List.filter is_publish (trace (update_data self cyc)) = [] ∨
   ∃ d m pubs,
     get_energy_data cyc = Ok d ∧ get_metrics_data cyc = Ok m ∧
     trace (update_data self cyc) = [EGetEnergyData; EGetMetricsData] ++ pubs ∧
     (pubs = [ESetEnergyData d] ∨ pubs = [ESetEnergyData d; ESetMetricsData m]))
  ∧
  ((∃ d m, get_energy_data cyc = Ok d ∧ get_metrics_data cyc = Ok m) ∨
   (List.filter is_publish (trace (update_data self cyc)) = [] ∧
    List.filter is_publish (trace (loop_body self cyc)) = []))
  ∧
  (partial_publish cyc (update_data self cyc) →
   ∃ d m e,
     get_energy_data cyc = Ok d ∧ get_metrics_data cyc = Ok m ∧
     set_energy_data cyc d = Ok tt ∧ set_metrics_data cyc m = Raise e ∧
     update_data self cyc =
     ([EGetEnergyData; EGetMetricsData; ESetEnergyData d; ESetMetricsData m],
      Raise e)).
Proof.
  assert (Hpartial :
    partial_publish cyc (update_data self cyc) →
    ∃ d m e,
      get_energy_data cyc = Ok d ∧ get_metrics_data cyc = Ok m ∧
      set_energy_data cyc d = Ok tt ∧ set_metrics_data cyc m = Raise e ∧
      update_data self cyc =
      ([EGetEnergyData; EGetMetricsData; ESetEnergyData d; ESetMetricsData m],
       Raise e)).
  { unfold partial_publish, update_data.
    destruct (getattr self "inverter") as [[[]|]|]; cbn;
      try (intros (d' & Hin & _); apply list_elem_of_In in Hin;
           simpl in Hin; by intuition).
    destruct (get_energy_data cyc) as [d|]; cbn;
      [|intros (d' & Hin & _); apply list_elem_of_In in Hin;
        simpl in Hin; by intuition].
    destruct (get_metrics_data cyc) as [m|]; cbn;
      [|intros (d' & Hin & _); apply list_elem_of_In in Hin;
        simpl in Hin; by intuition].
    destruct (getattr self "qilowatt_client") as [[[]|]|]; cbn;
      try (intros (d' & Hin & _); apply list_elem_of_In in Hin;
           simpl in Hin; by intuition).
    destruct (set_energy_data cyc d) as [[]|] eqn:Hse; cbn.
    - destruct (set_metrics_data cyc m) as [[]|e] eqn:Hsm; cbn.
      + by intros (d' & _ & _ & Hr).
      + intros _. by exists d, m, e.
    - intros (d' & Hin & Hok & _). apply list_elem_of_In in Hin.
      simpl in Hin. destruct Hin as [?|[?|[[= <-]|[]]]]; try done.
      by rewrite Hse in Hok. }
  assert (Hcases :
    (∃ d m pubs,
       get_energy_data cyc = Ok d ∧ get_metrics_data cyc = Ok m ∧
       trace (update_data self cyc) = [EGetEnergyData; EGetMetricsData] ++ pubs ∧
       (pubs = [ESetEnergyData d] ∨ pubs = [ESetEnergyData d; ESetMetricsData m]))
    ∨ Forall (λ e, is_publish e = false) (trace (update_data self cyc))).
  { unfold update_data.
    destruct (getattr self "inverter") as [[[]|]|]; cbn;
      try (right; by repeat constructor).
    destruct (get_energy_data cyc) as [d|]; cbn;
      [|right; by repeat constructor].
    destruct (get_metrics_data cyc) as [m|]; cbn;
      [|right; by repeat constructor].
    destruct (getattr self "qilowatt_client") as [[[]|]|]; cbn;
      try (right; by repeat constructor).
    left. exists d, m.
    destruct (set_energy_data cyc d) as [[]|]; cbn; [|by eauto 10].
    destruct (set_metrics_data cyc m) as [[]|]; cbn; by eauto 10. }
  split; [|split; [|exact Hpartial]].
  - destruct Hcases as [(d & m & pubs & ?)|Hnone]; [right; by eauto 10|].
    left. by apply filter_nil_Forall.
  - destruct Hcases as [(d & m & pubs & ? & ? & _)|Hnone]; [left; by eauto|].
    right. split; apply filter_nil_Forall; [done|].
    by apply loop_body_events.
Qed.

Lemma sleeps_job t :
  Forall (λ e, is_read e || is_publish e = true) t → sleeps t = [].
Proof.
  induction 1 as [|e t He _ IH]; [done|].
  unfold sleeps in *. cbn. rewrite IH. by destruct e.
Qed.

Lemma executor_jobs_job t :
  Forall (λ e, is_read e || is_publish e = true) t →
  List.filter is_executor_job t = [].
Proof.
  induction 1 as [|e t He _ IH]; [done|].
  cbn. rewrite IH. by destruct e.
Qed.

Lemma sleeps_app t1 t2 : sleeps (t1 ++ t2) = sleeps t1 ++ sleeps t2.
Proof. apply omap_app. Qed.

(** A pass that is not cancelled, against collaborators that fail with
    errors only: the pass ends, having slept once and run one job. *)
Lemma loop_body_alive c self cyc :
  shaped c self → raises_errors cyc → cancel cyc = None →
  result (loop_body self cyc) = Ok tt ∧
  sleeps (trace (loop_body self cyc)) = [10%Z] ∧
  List.filter is_executor_job (trace (loop_body self cyc)) = [EExecutorJob].
Proof.
  intros Hs Herr Hc. rewrite (loop_body_shaped c) by done. cbn zeta.
  rewrite Hc. cbn [bool_decide decide_rel]. rewrite !bool_decide_eq_false_2 by done.
  assert (Hj := update_data_events self cyc).
  assert (Hf := update_data_fails self cyc Herr).
  set (job := update_data self cyc) in *. clearbody job.
  destruct (result job) as [[]|e]; [|simpl in Hf; rewrite Hf];
    cbn.
  all: rewrite ?sleeps_app, ?List.filter_app.
  all: rewrite ?sleeps_job, ?executor_jobs_job by done.
  all: done.
Qed.

(** A pass that is not cancelled and whose job returns or fails with an
    error ends normally, having run one job and slept once. *)
Lemma loop_body_completes c self cyc :
  shaped c self → cancel cyc = None →
  fails_with_errors (result (update_data self cyc)) →
  result (loop_body self cyc) = Ok tt ∧
  sleeps (trace (loop_body self cyc)) = [10%Z] ∧
  List.filter is_executor_job (trace (loop_body self cyc)) = [EExecutorJob].
Proof.
  intros Hs Hc Hf. rewrite (loop_body_shaped c) by done. cbn zeta.
  rewrite Hc. rewrite !bool_decide_eq_false_2 by done.
  assert (Hj := update_data_events self cyc).
  set (job := update_data self cyc) in *. clearbody job.
  destruct (result job) as [[]|e]; [|simpl in Hf; rewrite Hf];
    cbn.
  all: rewrite ?sleeps_app, ?List.filter_app.
  all: rewrite ?sleeps_job, ?executor_jobs_job by done.
  all: done.
Qed.

(** A pass ends the loop only by a cancellation or by an exception of the
    job that is not an [Exception]. *)
Lemma loop_body_ends c self cyc e :
  shaped c self →
  result (loop_body self cyc) = Raise e →
  (cancel cyc ≠ None ∧ e = cancelled_error) ∨
  (is_Exception e = false ∧ result (update_data self cyc) = Raise e).
Proof.
  intros Hs. rewrite (loop_body_shaped c) by done. cbn zeta.
  set (job := update_data self cyc) in *. clearbody job.
  unfold asyncio_sleep.
  destruct (cancel cyc) as [[]|]; repeat case_bool_decide; try congruence.
  - cbn. intros [= <-]. by left.
  - destruct (result job) as [[]|e']; [|destruct (is_Exception e') eqn:He'];
      cbn; intros [= <-]; first [by left | by right].
  - destruct (result job) as [[]|e']; [|destruct (is_Exception e') eqn:He'];
      cbn; try done. intros [= <-]. by right.
Qed.

(** C5 (amended): a failure of a cycle that is an [Exception] is caught
    and logged in the loop body, which then sleeps; the loop goes through
    any number of cycles whose jobs return or fail that way and is still
    running afterwards.  It ends only by the [CancelledError] of a
    cancellation or by an exception of a cycle that is not an [Exception],
    which [except Exception] lets through. *)
Theorem telemetry_loop_survives_failures c self cycles :
  built get_inverter_class c self →
  (∀ cyc e,
     cancel cyc = None →
     result (update_data self cyc) = Raise e →
     is_Exception e = true →
     loop_body self cyc =
     (EExecutorJob :: trace (update_data self cyc) ++
        [EJobDone; ELog ERROR [Lit "Error updating data: "; FExn e];
         ESleep 10],
      Ok tt)) ∧
  (Forall (λ cyc, cancel cyc = None ∧
                  fails_with_errors (result (update_data self cyc))) cycles →
     result (update_data_loop self cycles) = Ok tt ∧
     sleeps (trace (update_data_loop self cycles)) =
       replicate (length cycles) 10%Z ∧
     List.filter is_executor_job (trace (update_data_loop self cycles)) =
       replicate (length cycles) EExecutorJob) ∧
  (∀ e,
     result (update_data_loop self cycles) = Raise e →
     Exists (λ cyc,
               (cancel cyc ≠ None ∧ e = cancelled_error) ∨
               (is_Exception e = false ∧
                result (update_data self cyc) = Raise e)) cycles).
Proof.
  intros Hb. apply built_shaped in Hb. split; [|split].
  - intros cyc e Hc He Hf.
    rewrite (loop_body_shaped c) by done. cbn zeta.
    set (job := update_data self cyc) in *. clearbody job.
    rewrite Hc, He, Hf.
    rewrite !bool_decide_eq_false_2 by done.
    cbn. by rewrite <- ?app_assoc.
  - induction 1 as [|cyc cycles [Hc Hf] _ IH]; [done|].
    destruct (loop_body_completes c self cyc Hb Hc Hf) as (Hr & Hz & Hj).
    destruct IH as (IHr & IHz & IHj).
    cbn [update_data_loop length replicate].
    rewrite result_bind, trace_bind, Hr, sleeps_app, List.filter_app.
    by rewrite IHr, Hz, IHz, Hj, IHj.
  - induction cycles as [|cyc cycles IH]; [done|].
    intros e. cbn [update_data_loop]. rewrite result_bind.
    destruct (result (loop_body self cyc)) as [[]|e'] eqn:Hr.
    + intros He. apply Exists_cons_tl. by apply IH.
    + intros [= ->]. apply Exists_cons_hd. by apply (loop_body_ends c).
Qed.

Lemma sequential_job t rest :
  Forall (λ e, is_read e || is_publish e = true) t →
  sequential InJob (t ++ rest) = sequential InJob rest.
Proof.
  induction 1 as [|e t He _ IH]; [done|].
  destruct e; try discriminate He; exact IH.
Qed.

(** The monitor goes through a whole pass and is back to [Idle]; a pass
    that ends the loop is accepted as far as it got. *)
Lemma loop_body_sequential c self cyc :
  shaped c self →
  sequential Idle (trace (loop_body self cyc)) = true ∧
  (result (loop_body self cyc) = Ok tt →
   ∀ rest, sequential Idle (trace (loop_body self cyc) ++ rest) =
           sequential Idle rest).
Proof.
  intros Hs. rewrite (loop_body_shaped c) by done. cbn zeta.
  assert (Hj := update_data_events self cyc).
  set (job := update_data self cyc) in *. clearbody job.
  assert (Hnil : sequential InJob (trace job) = true).
  { rewrite <- (app_nil_r (trace job)). by rewrite sequential_job. }
  unfold asyncio_sleep.
  destruct (cancel cyc) as [[]|]; repeat case_bool_decide; try congruence;
    [by split|..];
    destruct (result job) as [[]|e]; try destruct (is_Exception e); cbn;
    (split; [|intros Hr rest; try discriminate Hr]);
    rewrite <- ?app_assoc, ?sequential_job by done; done.
Qed.

Lemma update_data_loop_snoc self cycles cyc :
  trace (update_data_loop self (cycles ++ [cyc])) =
  trace (update_data_loop self cycles) ++
  match result (update_data_loop self cycles) with
  | Ok _ => trace (loop_body self cyc)
  | Raise _ => []
  end.
Proof.
  induction cycles as [|cyc' cycles IH]; cbn [app update_data_loop].
  - rewrite trace_bind. cbn [ret trace result fst snd app].
    destruct (result (loop_body self cyc)); apply app_nil_r.
  - rewrite !trace_bind, !result_bind.
    destruct (result (loop_body self cyc')); [|by rewrite !app_nil_r].
    by rewrite IH, app_assoc.
Qed.

(** C7: the passes of the loop follow one another.  The events of pass
    N+1 come after every event of the passes before it, and the whole trace
    is accepted by the monitor: device and client calls happen only inside a
    job, and a job starts only after the previous job is done and the sleep
    that follows it has elapsed. *)
Theorem iterations_strictly_sequential c self cycles :
  built get_inverter_class c self →
  sequential Idle (trace (update_data_loop self cycles)) = true ∧
  ∀ cyc,
    trace (update_data_loop self (cycles ++ [cyc])) =
    trace (update_data_loop self cycles) ++
    match result (update_data_loop self cycles) with
    | Ok _ => trace (loop_body self cyc)
    | Raise _ => []
    end.
Proof.
  intros Hb. apply built_shaped in Hb.
  split; [|intros cyc; apply update_data_loop_snoc].
  induction cycles as [|cyc cycles IH]; [done|].
  cbn [update_data_loop]. rewrite trace_bind.
  destruct (loop_body_sequential c self cyc Hb) as [Hacc Hnext].
  destruct (result (loop_body self cyc)) as [[]|e].
  - by rewrite Hnext.
  - by rewrite app_nil_r.
Qed.

Lemma sleeps_none (t : list event) :
  Forall (λ e, match e with ESleep _ => False | _ => True end) t →
  sleeps t = [].
Proof.
  induction 1 as [|e t He _ IH]; [done|].
  unfold sleeps in *. by destruct e.
Qed.

(** On any instance, a pass sleeps exactly once, for 10 seconds, when it
    ends normally, and not at all when it ends the loop. *)
Lemma loop_body_sleeps self cyc :
  sleeps (trace (loop_body self cyc)) =
  if raised (result (loop_body self cyc)) then [] else [10%Z].
Proof.
  unfold loop_body.
  match goal with |- context [try_except ?b ?h] => set (T := try_except b h) end.
  assert (HT : sleeps (trace T) = []).
  { apply sleeps_none. subst T. apply Forall_trace_try_except.
    - apply Forall_trace_bind; [constructor | intros hass _].
      apply Forall_trace_bind; [destruct hass as [[]|]; constructor|].
      intros _ _. apply Forall_trace_bind; [constructor | intros job _].
      apply Forall_trace_executor; [done | done |].
      apply Forall_trace_bind; [destruct job; constructor | intros _ _].
      eapply Forall_impl; [apply update_data_events|].
      intros e He. by destruct e.
    - intros e. by repeat constructor. }
  clearbody T. rewrite trace_bind, result_bind, sleeps_app, HT.
  destruct (result T) as [[]|e]; [|done].
  unfold asyncio_sleep. by case_bool_decide.
Qed.

(** C8 (amended): the interval between cycles is the constant 10 seconds,
    on every instance and so for every configuration entry: a pass that
    ends normally has slept exactly once, for 10 seconds, and a loop that
    has gone through n cycles has slept n times for 10 seconds. *)
Theorem poll_interval_is_constant self cycles :
  (∀ cyc,
     sleeps (trace (loop_body self cyc)) =
     if raised (result (loop_body self cyc)) then [] else [10%Z]) ∧
  match result (update_data_loop self cycles) with
  | Ok _ =>
      sleeps (trace (update_data_loop self cycles)) =
      replicate (length cycles) 10%Z
  | Raise _ =>
      ∃ k, k < length cycles ∧
        sleeps (trace (update_data_loop self cycles)) = replicate k 10%Z
  end.
Proof.
  split; [intros cyc; apply loop_body_sleeps|].
  induction cycles as [|cyc cycles IH]; [done|].
  cbn [update_data_loop length].
  rewrite result_bind, trace_bind, sleeps_app, loop_body_sleeps.
  destruct (result (loop_body self cyc)) as [[]|e]; cbn [raised].
  - destruct (result (update_data_loop self cycles)) as [[]|e].
    + by rewrite IH.
    + destruct IH as (k & Hk & ->). exists (S k). split; [lia | done].
  - exists 0. split; [lia | done].
Qed.

End Properties.


(** ** The control path on a concrete host *)

(** C1: a command from "timer" under "Full control" is authorized by the
    table, and the host resolves the select entity and its state; yet no
    [set_mode] call is made for it, because the control path raises at its
    use of [self.entity_registry].  With the registry bound to the instance
    the same code makes the single call. *)
Theorem authorized_command_is_not_executed :
  result (__init__ sample_classes sample_entry) = Ok sample_self ∧
  entities full_control_host
    !! ("select", "qilowatt", entry_id sample_entry +:+ "_inverter_control")
    = Some "select.inverter_control" ∧
  states full_control_host !! "select.inverter_control" = Some "Full control" ∧
  source_allowed "Full control" (_source timer_command) = true ∧
  List.filter is_set_mode
    (run_ready "qilowatt" sample_self full_control_host
       (scheduled (trace (_on_command_received "qilowatt" sample_self
                            Running timer_command)))) = [] ∧
  handle_inverter_control "qilowatt" sample_self full_control_host
    timer_command =
    ([], Raise (mk_exn AttributeError
                  "'MQTTClient' object has no attribute 'entity_registry'")) ∧
  List.filter is_set_mode
    (trace (handle_inverter_control "qilowatt" (attach_registry sample_self)
              full_control_host timer_command)) = [ESetMode timer_command].
Proof. repeat apply conj; by_compute. Qed.

(** C6: with the select entity missing from the registry, or registered
    but without a state, the command is dropped without a [set_mode] call,
    but by the [AttributeError] of the control path and not by the logged
    abort: no error is logged.  With the registry bound to the instance the
    same code logs the error and returns. *)
Theorem unresolved_entity_is_not_logged :
  result (__init__ sample_classes sample_entry) = Ok sample_self ∧
  entities unregistered_host
    !! ("select", "qilowatt", entry_id sample_entry +:+ "_inverter_control")
    = None ∧
  handle_inverter_control "qilowatt" sample_self unregistered_host
    timer_command =
    ([], Raise (mk_exn AttributeError
                  "'MQTTClient' object has no attribute 'entity_registry'")) ∧
  states stateless_host !! "select.inverter_control" = None ∧
  handle_inverter_control "qilowatt" sample_self stateless_host
    timer_command =
    ([], Raise (mk_exn AttributeError
                  "'MQTTClient' object has no attribute 'entity_registry'")) ∧
  handle_inverter_control "qilowatt" (attach_registry sample_self)
    unregistered_host timer_command =
    ([EGetEntityId "select" "qilowatt" "entry1_inverter_control";
      ELog ERROR [Lit "Inverter Control select entity not found."]],
     Ok tt) ∧
  handle_inverter_control "qilowatt" (attach_registry sample_self)
    stateless_host timer_command =
    ([EGetEntityId "select" "qilowatt" "entry1_inverter_control";
      EStatesGet "select.inverter_control";
      ELog ERROR
        [Lit "Unable to get state of Inverter Control select entity."]],
     Ok tt).
Proof. repeat apply conj; by_compute. Qed.

(** ** The configured interval *)

(** C8: on an instance built from an entry that sets
    [pollIntervalSeconds] to 30 the loop still sleeps 10 seconds, so the
    interval is not the configured value. *)
Lemma poll_interval_ignores_configuration :
  ¬ (∀ get_inverter_class c self cycles,
       built get_inverter_class c self →
       Forall (λ s, s = spec_pollIntervalSeconds c)
         (sleeps (trace (update_data_loop self cycles)))).
Proof.
  intros Hall.
  assert (Hb : built sample_classes sample_entry_30 sample_self_30)
    by (apply built_init; by_compute).
  specialize (Hall sample_classes sample_entry_30 sample_self_30
                [good_cycle] Hb).
  vm_compute in Hall. inversion Hall as [|s t Hs Ht]. discriminate Hs.
Qed.

(** ** Failures that leave the loop, the callback and a cycle *)

(** The instance [start] leaves when every call of the messaging client
    succeeds. *)
Ltac sample_started_built :=
  replace sample_started with ((start working_link sample_self).1)
    by by_compute;
  apply built_start; apply built_init; by_compute.

(** C5: a cycle whose device read raises [SystemExit] ends the loop,
    though nothing cancelled it: not every failure is caught. *)
Lemma base_exception_ends_the_loop :
  ¬ (∀ get_inverter_class c self cycles,
       built get_inverter_class c self →
       Forall (λ cyc, cancel cyc = None) cycles →
       result (update_data_loop self cycles) = Ok tt).
Proof.
  intros Hall.
  assert (Hb : built sample_classes sample_entry sample_started)
    by sample_started_built.
  specialize (Hall sample_classes sample_entry sample_started
                [fatal_cycle; good_cycle] Hb).
  assert (Hr : result (update_data_loop sample_started
                         [fatal_cycle; good_cycle]) =
               Raise (mk_exn SystemExit "")) by by_compute.
  rewrite Hr in Hall. discriminate Hall. repeat constructor.
Qed.

(** C9: on a closed host loop the callback raises [RuntimeError] to its
    caller, after the debug record and before anything is posted. *)
Lemma callback_raises_on_closed_loop :
  ¬ (∀ get_inverter_class c self loop command,
       built get_inverter_class c self →
       result (_on_command_received "qilowatt" self loop command) = Ok tt).
Proof.
  intros Hall.
  assert (Hb : built sample_classes sample_entry sample_self)
    by (apply built_init; by_compute).
  specialize (Hall sample_classes sample_entry sample_self Closed
                timer_command Hb).
  assert (Hr : _on_command_received "qilowatt" sample_self Closed
                 timer_command =
               ([ELog DEBUG [Lit "Received WORKMODE command: ";
                             FCommand timer_command]],
                Raise (mk_exn RuntimeError "Event loop is closed")))
    by by_compute.
  rewrite Hr in Hall. discriminate Hall.
Qed.

(** C10: when [set_energy_data] has returned and [set_metrics_data]
    raises, the client has the energy data of the cycle and not its
    metrics: a partial publish. *)
Lemma metrics_failure_publishes_partly :
  ¬ (∀ get_inverter_class c self cyc,
       built get_inverter_class c self →
       ¬ partial_publish cyc (update_data self cyc)).
Proof.
  intros Hall.
  assert (Hb : built sample_classes sample_entry sample_started)
    by sample_started_built.
  apply (Hall sample_classes sample_entry sample_started
           half_published_cycle Hb).
  assert (Hr : update_data sample_started half_published_cycle =
               ([EGetEnergyData; EGetMetricsData;
                 ESetEnergyData (mk_energy [1%Z]);
                 ESetMetricsData (mk_metrics [2%Z])],
                Raise (mk_exn RuntimeError "client stopped")))
    by by_compute.
  exists (mk_energy [1%Z]). rewrite Hr. split; [|split].
  - in_list.
  - reflexivity.
  - discriminate.
Qed.

(** ** Instances of the theorems on the sample data *)

Lemma control_path_raises_attribute_error_witness :
  built sample_classes sample_entry sample_started ∧
  sample_started !! "entity_registry" = None ∧
  handle_inverter_control "qilowatt" sample_started full_control_host
    timer_command =
    ([], Raise (mk_exn AttributeError
                  "'MQTTClient' object has no attribute 'entity_registry'")).
Proof.
  assert (Hb : built sample_classes sample_entry sample_started)
    by sample_started_built.
  split; [exact Hb|].
  exact (control_path_raises_attribute_error "qilowatt" sample_classes
           sample_entry sample_started full_control_host timer_command Hb).
Defined.


Lemma callback_posts_and_returns_witness :
  built sample_classes sample_entry sample_self ∧
  Forall (λ e, host_context_only e = false)
    (trace (_on_command_received "qilowatt" sample_self Running
              timer_command)) ∧
  (∀ host,
     result (handle_inverter_control "qilowatt" sample_self host
               timer_command) =
     Raise (no_attribute "MQTTClient" "entity_registry")) ∧
  result (_on_command_received "qilowatt" sample_self Running timer_command)
    = Ok tt ∧
  ∃ signal,
    scheduled (trace (_on_command_received "qilowatt" sample_self Running
                        timer_command)) =
    [HControl timer_command; HDispatch signal timer_command].
Proof.
  assert (Hb : built sample_classes sample_entry sample_self)
    by (apply built_init; by_compute).
  split; [exact Hb|].
  apply (callback_posts_and_returns "qilowatt" sample_classes sample_entry
           sample_self sample_self Running timer_command Hb).
  left. reflexivity.
Defined.

Lemma telemetry_loop_survives_failures_witness :
  built sample_classes sample_entry sample_started ∧
  result (update_data_loop sample_started
            [failing_cycle; failing_cycle; good_cycle]) = Ok tt ∧
  sleeps (trace (update_data_loop sample_started
                   [failing_cycle; failing_cycle; good_cycle])) =
    [10%Z; 10%Z; 10%Z].
Proof.
  assert (Hb : built sample_classes sample_entry sample_started)
    by sample_started_built.
  split; [exact Hb|].
  destruct (telemetry_loop_survives_failures sample_classes sample_entry
              sample_started [failing_cycle; failing_cycle; good_cycle] Hb)
    as (_ & Halive & _).
  destruct Halive as (Hr & Hz & _).
  - assert (Hf : result (update_data sample_started failing_cycle) =
                 Raise (mk_exn RuntimeError "device unreachable"))
      by by_compute.
    assert (Hg : result (update_data sample_started good_cycle) = Ok tt)
      by by_compute.
    repeat constructor; rewrite ?Hf, ?Hg; reflexivity.
  - split; [exact Hr | exact Hz].
Defined.

Lemma iterations_strictly_sequential_witness :
  built sample_classes sample_entry sample_started ∧
  sequential Idle
    (trace (update_data_loop sample_started [good_cycle; failing_cycle])) =
  true.
Proof.
  assert (Hb : built sample_classes sample_entry sample_started)
    by sample_started_built.
  split; [exact Hb|].
  apply (iterations_strictly_sequential sample_classes sample_entry
           sample_started [good_cycle; failing_cycle] Hb).
Defined.

(** ** Construction, lifecycle and the rest of the telemetry and control
       paths *)

Lemma append_inj_l (p a b : string) : p +:+ a = p +:+ b → a = b.
Proof.
  induction p as [|ch p IH]; cbn; [done|]. intros [= H]. by apply IH.
Qed.

Section Lifecycle.

Variable DOMAIN : string.
Variable get_inverter_class : attr_ref → outcome InverterClass.

(** X1: [__init__] raises [KeyError] for the first of the four keys that
    the entry's data lacks, and what [get_inverter_class] raises for the
    configured model, in both cases before anything is called.  Otherwise
    it calls the adapter class once on the entry: what that call raises
    propagates, and when it returns the instance holds the adapter and no
    messaging client yet. *)
Theorem init_result c :
  match List.find (λ k, bool_decide (data c !! k = None)) required_keys with
  | Some k =>
      __init__ get_inverter_class c =
      ([], Raise (mk_exn KeyError ("'" +:+ k +:+ "'")))
  | None =>
      ∃ model, data c !! "inverter_model" = Some model ∧
        match get_inverter_class (Bound (AVal model)) with
        | Raise e => __init__ get_inverter_class c = ([], Raise e)
        | Ok cls =>
            match new_inverter cls c with
            | Raise e =>
                __init__ get_inverter_class c =
                ([ENewInverter (class_name cls)], Raise e)
            | Ok _ =>
                trace (__init__ get_inverter_class c) =
                  [ENewInverter (class_name cls)] ∧
                ∃ self, result (__init__ get_inverter_class c) = Ok self ∧
                  self !! "inverter" = Some (AInverter (class_name cls)) ∧
                  self !! "qilowatt_client" = Some (AVal VNone)
            end
        end
  end.
Proof.
  unfold __init__, subscript, required_keys. cbn [List.find].
  destruct (data c !! "mqtt_username") as [u|]; cbn; [|done].
  destruct (data c !! "mqtt_password") as [p|]; cbn; [|done].
  destruct (data c !! "inverter_id") as [i|]; cbn; [|done].
  destruct (data c !! "inverter_model") as [m|]; cbn; [|done].
  erewrite getattr_bound by (vm_compute; reflexivity).
  exists m. split; [done|].
  destruct (get_inverter_class _) as [cls|e]; cbn; [|done].
  erewrite getattr_bound by (vm_compute; reflexivity). cbn.
  destruct (new_inverter cls c) as [[]|e]; cbn; [|done].
  split; [done|]. eexists. split; [reflexivity|].
  split; vm_compute; reflexivity.
Qed.

Lemma init_no_client c self :
  result (__init__ get_inverter_class c) = Ok self →
  self !! "qilowatt_client" = Some (AVal VNone).
Proof.
  unfold __init__, subscript.
  destruct (data c !! "mqtt_username") as [u|]; [|done].
  destruct (data c !! "mqtt_password") as [p|]; [|done].
  destruct (data c !! "inverter_id") as [i|]; [|done].
  destruct (data c !! "inverter_model") as [m|]; [|done].
  cbn. erewrite getattr_bound by (vm_compute; reflexivity).
  destruct (get_inverter_class _) as [cls|]; [|done].
  erewrite getattr_bound by (vm_compute; reflexivity).
  cbn. destruct (new_inverter cls c) as [[]|]; [|done].
  cbn. intros [= <-]. vm_compute; reflexivity.
Qed.

(** A built instance keeps the entry's four values under their attribute
    names: no method assigns them again. *)
Lemma built_config c self k :
  built get_inverter_class c self → k ∈ required_keys →
  ∃ v, data c !! k = Some v ∧ self !! k = Some (AVal v).
Proof.
  intros Hb Hk. assert (Hne : k ≠ "qilowatt_client").
  { intros ->. apply list_elem_of_In in Hk. simpl in Hk.
    repeat (destruct Hk as [Hk|Hk]; [discriminate Hk|]). done. }
  induction Hb as [self Hi | link self Hb IH | link self Hb IH].
  - revert Hi. unfold __init__, subscript.
    destruct (data c !! "mqtt_username") as [u|] eqn:Hu; [|done].
    destruct (data c !! "mqtt_password") as [p|] eqn:Hp; [|done].
    destruct (data c !! "inverter_id") as [i|] eqn:Hi; [|done].
    destruct (data c !! "inverter_model") as [m|] eqn:Hm; [|done].
    cbn. erewrite getattr_bound by (vm_compute; reflexivity).
    destruct (get_inverter_class _) as [cls|]; [|done].
    erewrite getattr_bound by (vm_compute; reflexivity).
    cbn. destruct (new_inverter cls c) as [[]|]; [|done].
    cbn. intros [= <-].
    apply list_elem_of_In in Hk. simpl in Hk.
    destruct Hk as [<-|[<-|[<-|[<-|[]]]]]; eexists; (split; [eassumption|]);
      vm_compute; reflexivity.
  - destruct (initialize_client_leaves c self link (built_shaped _ _ _ Hb))
      as [->| ->]; [done|].
    destruct IH as (v & Hv & Hs). exists v. by rewrite lookup_insert_ne.
  - destruct (start_leaves c self link (built_shaped _ _ _ Hb))
      as [->| ->]; [done|].
    destruct IH as (v & Hv & Hs). exists v. by rewrite lookup_insert_ne.
Qed.

(** The entry's credentials as a built instance holds them. *)
Lemma built_credentials c self :
  built get_inverter_class c self →
  ∃ u p i,
    data c !! "mqtt_username" = Some u ∧
    data c !! "mqtt_password" = Some p ∧
    data c !! "inverter_id" = Some i ∧
    self !! "mqtt_username" = Some (AVal u) ∧
    self !! "mqtt_password" = Some (AVal p) ∧
    self !! "inverter_id" = Some (AVal i).
Proof.
  intros Hb.
  destruct (built_config c self "mqtt_username" Hb) as (u & Hu & Hsu);
    [unfold required_keys; in_list|].
  destruct (built_config c self "mqtt_password" Hb) as (p & Hp & Hsp);
    [unfold required_keys; in_list|].
  destruct (built_config c self "inverter_id" Hb) as (i & Hi & Hsi);
    [unfold required_keys; in_list|].
  by exists u, p, i.
Qed.

(** What a call of [start] that returned has left. *)
Lemma start_returned c self link started t :
  built get_inverter_class c self →
  start link self = (started, (t, Ok tt)) →
  built get_inverter_class c started ∧
  started !! "qilowatt_client" = Some AQilowattClient.
Proof.
  intros Hb Hr. split.
  - replace started with (start link self).1 by by rewrite Hr.
    by apply built_start.
  - assert (Hs := built_shaped _ _ _ Hb).
    destruct (built_credentials c self Hb)
      as (u & p & i & _ & _ & _ & Hu & Hp & Hi).
    destruct (shaped_client _ _ Hs) as [Hq|Hq].
    + rewrite (start_uninitialized c self link _ _ _ Hs Hu Hp Hi Hq) in Hr.
      cbn zeta in Hr.
      destruct (new_client link); [|by injection Hr].
      destruct (set_command_callback link); [|by injection Hr].
      destruct (connect link); [|by injection Hr].
      injection Hr as <- _. apply lookup_insert_eq.
    + rewrite (start_initialized c self link Hs Hq) in Hr.
      by injection Hr as <- _.
Qed.

(** X2: [initialize_client] constructs the messaging client from the
    entry's user name, password and inverter id as they are.  When the
    constructor raises, the exception propagates and the instance is left
    as it was.  Otherwise the client is bound to the instance, replacing
    what [qilowatt_client] held, [_on_command_received] is registered as
    its callback, and the outcome is that of [set_command_callback].  It
    never connects. *)
Theorem initialize_client_builds_client c self link :
  built get_inverter_class c self →
  ∃ u p i,
    data c !! "mqtt_username" = Some u ∧
    data c !! "mqtt_password" = Some p ∧
    data c !! "inverter_id" = Some i ∧
    initialize_client link self =
    match new_client link with
    | Raise e =>
        (self,
         ([ELog DEBUG [Lit "Initializing Qilowatt MQTT client"];
           ENewClient (Bound (AVal u)) (Bound (AVal p)) (Bound (AVal i))],
          Raise e))
    | Ok _ =>
        (<["qilowatt_client" := AQilowattClient]> self,
         ([ELog DEBUG [Lit "Initializing Qilowatt MQTT client"];
           ENewClient (Bound (AVal u)) (Bound (AVal p)) (Bound (AVal i));
           ESetCommandCallback "_on_command_received"],
          set_command_callback link))
    end.
Proof.
  intros Hb.
  destruct (built_credentials c self Hb)
    as (u & p & i & Hu & Hp & Hi & Hsu & Hsp & Hsi).
  exists u, p, i. repeat (split; [done|]).
  by apply (initialize_client_shaped c); [apply (built_shaped _ _ _ Hb)|..].
Qed.

(** X3: the first [start] of a freshly constructed instance constructs the
    client from the entry's credentials, registers the callback, connects
    and only then creates the one [update_data_loop] task.  The first of
    these calls that raises ends [start] with its exception: a failing
    constructor leaves the instance without a client, a failing
    [set_command_callback] or [connect] leaves the client bound, and in no
    such case is the task created. *)
Theorem first_start c self link :
  result (__init__ get_inverter_class c) = Ok self →
  ∃ u p i,
    data c !! "mqtt_username" = Some u ∧
    data c !! "mqtt_password" = Some p ∧
    data c !! "inverter_id" = Some i ∧
    start link self =
    let created :=
      [ELog DEBUG [Lit "Starting Qilowatt MQTT client"];
       ELog DEBUG [Lit "Initializing Qilowatt MQTT client"];
       ENewClient (Bound (AVal u)) (Bound (AVal p)) (Bound (AVal i))] in
    let started := <["qilowatt_client" := AQilowattClient]> self in
    match new_client link with
    | Raise e => (self, (created, Raise e))
    | Ok _ =>
        match set_command_callback link with
        | Raise e =>
            (started,
             (created ++ [ESetCommandCallback "_on_command_received"],
              Raise e))
        | Ok _ =>
            match connect link with
            | Raise e =>
                (started,
                 (created ++
                  [ESetCommandCallback "_on_command_received"; EConnect],
                  Raise e))
            | Ok _ =>
                (started,
                 (created ++
                  [ESetCommandCallback "_on_command_received"; EConnect;
                   ECreateTask "update_data_loop"],
                  Ok tt))
            end
        end
    end.
Proof.
  intros Hi.
  assert (Hb : built get_inverter_class c self) by by apply built_init.
  destruct (built_credentials c self Hb)
    as (u & p & i & Hu & Hp & Hid & Hsu & Hsp & Hsi).
  exists u, p, i. repeat (split; [done|]).
  apply (start_uninitialized c); try done.
  - apply (built_shaped _ _ _ Hb).
  - by apply (init_no_client c).
Qed.

(** X4: [start] on an instance that a previous [start] has returned from
    constructs no client and registers no callback; it connects again and,
    when [connect] returns, creates a second [update_data_loop] task; when
    [connect] raises, the exception propagates and no task is created.  The
    instance is left as it was. *)
Theorem repeated_start c self link started t link' :
  built get_inverter_class c self →
  start link self = (started, (t, Ok tt)) →
  start link' started =
  (started,
   match connect link' with
   | Ok _ =>
       ([ELog DEBUG [Lit "Starting Qilowatt MQTT client"]; EConnect;
         ECreateTask "update_data_loop"],
        Ok tt)
   | Raise e =>
       ([ELog DEBUG [Lit "Starting Qilowatt MQTT client"]; EConnect], Raise e)
   end).
Proof.
  intros Hb Hr.
  destruct (start_returned c self link started t Hb Hr) as [Hb' Hq].
  by apply (start_initialized c); [apply (built_shaped _ _ _ Hb')|].
Qed.

(** X5: [stop] only logs when the instance has no client; when one is
    bound it calls [disconnect] once, and its outcome is that of
    [disconnect]: what [disconnect] raises propagates. *)
Theorem stop_disconnects c self link :
  built get_inverter_class c self →
  (self !! "qilowatt_client" = Some (AVal VNone) ∧
   stop link self =
   ([ELog DEBUG [Lit "Stopping Qilowatt MQTT client"]], Ok tt)) ∨
  (self !! "qilowatt_client" = Some AQilowattClient ∧
   stop link self =
   ([ELog DEBUG [Lit "Stopping Qilowatt MQTT client"]; EDisconnect],
    disconnect link)).
Proof.
  intros Hb. apply built_shaped in Hb.
  destruct (shaped_client _ _ Hb) as [Hq|Hq]; [left|right];
    (split; [done|]); unfold stop; rewrite !(getattr_bound _ _ _ Hq);
    [done|]. cbn. by destruct (disconnect link).
Qed.

Lemma update_data_no_client c self cyc d m :
  shaped c self →
  self !! "qilowatt_client" = Some (AVal VNone) →
  get_energy_data cyc = Ok d → get_metrics_data cyc = Ok m →
  update_data self cyc =
  ([EGetEnergyData; EGetMetricsData],
   Raise (no_attribute "NoneType" "set_energy_data")).
Proof.
  intros Hs Hq Hd Hm. destruct (shaped_inverter _ _ Hs) as (cls & Hinv).
  unfold update_data.
  by rewrite !(getattr_bound _ _ _ Hinv), !(getattr_bound _ _ _ Hq), Hd, Hm.
Qed.

Lemma update_data_client c self cyc d m :
  shaped c self →
  self !! "qilowatt_client" = Some AQilowattClient →
  get_energy_data cyc = Ok d → get_metrics_data cyc = Ok m →
  update_data self cyc =
  match set_energy_data cyc d with
  | Ok _ =>
      ([EGetEnergyData; EGetMetricsData; ESetEnergyData d; ESetMetricsData m],
       set_metrics_data cyc m)
  | Raise e =>
      ([EGetEnergyData; EGetMetricsData; ESetEnergyData d], Raise e)
  end.
Proof.
  intros Hs Hq Hd Hm. destruct (shaped_inverter _ _ Hs) as (cls & Hinv).
  unfold update_data.
  rewrite !(getattr_bound _ _ _ Hinv), !(getattr_bound _ _ _ Hq), Hd, Hm.
  cbn. destruct (set_energy_data cyc d) as [[]|]; cbn; [|done].
  by destruct (set_metrics_data cyc m).
Qed.

(** X6: on an instance that was constructed but never started,
    [update_data] still reads energy and metrics from the inverter and then
    raises [AttributeError] on the missing client: nothing reaches the
    messaging client. *)
Theorem update_data_before_start c self cyc d m :
  result (__init__ get_inverter_class c) = Ok self →
  get_energy_data cyc = Ok d → get_metrics_data cyc = Ok m →
  update_data self cyc =
  ([EGetEnergyData; EGetMetricsData],
   Raise (mk_exn AttributeError
            "'NoneType' object has no attribute 'set_energy_data'")).
Proof.
  intros Hi Hd Hm.
  assert (Hs := init_shaped get_inverter_class c self Hi).
  apply (update_data_no_client c self cyc d m); try done.
  by apply (init_no_client c).
Qed.

(** X7: on a started instance [update_data] hands the client exactly the
    values the inverter returned, energy first; when [set_energy_data]
    raises, [set_metrics_data] is not called, and the outcome is otherwise
    that of [set_metrics_data]. *)
Theorem update_data_hands_over_readings c self link started t cyc d m :
  built get_inverter_class c self →
  start link self = (started, (t, Ok tt)) →
  get_energy_data cyc = Ok d → get_metrics_data cyc = Ok m →
  update_data started cyc =
  match set_energy_data cyc d with
  | Ok _ =>
      ([EGetEnergyData; EGetMetricsData; ESetEnergyData d; ESetMetricsData m],
       set_metrics_data cyc m)
  | Raise e =>
      ([EGetEnergyData; EGetMetricsData; ESetEnergyData d], Raise e)
  end.
Proof.
  intros Hb Hr Hd Hm.
  destruct (start_returned c self link started t Hb Hr) as [Hb' Hq].
  by apply (update_data_client c started cyc d m);
    [apply (built_shaped _ _ _ Hb')|..].
Qed.

(** X8: an exception of a cycle that is not an [Exception] (a
    [SystemExit], say) is not caught by the loop: the coroutine ends with
    it at once, without logging, without sleeping and without running a
    later cycle. *)
Theorem loop_ends_on_base_exception c self cyc rest e :
  built get_inverter_class c self →
  cancel cyc ≠ Some AtExecutorJob →
  result (update_data self cyc) = Raise e →
  is_Exception e = false →
  update_data_loop self (cyc :: rest) =
  (EExecutorJob :: trace (update_data self cyc) ++ [EJobDone], Raise e).
Proof.
  intros Hb Hc He Hfatal. apply built_shaped in Hb.
  cbn [update_data_loop]. rewrite (loop_body_shaped c) by done. cbn zeta.
  by rewrite bool_decide_eq_false_2, He, Hfatal by done.
Qed.

Lemma error_logs_job t :
  Forall (λ e, is_read e || is_publish e = true) t →
  List.filter is_error_log t = [].
Proof.
  induction 1 as [|e t He _ IH]; [done|].
  cbn. rewrite IH. by destruct e.
Qed.

(** X9: a cancellation delivered during a cycle ends the loop with
    [CancelledError]: the sleep of that cycle does not elapse and no later
    cycle is run. *)
Theorem cancelled_loop_stops c self cyc rest p :
  built get_inverter_class c self →
  raises_errors cyc →
  cancel cyc = Some p →
  update_data_loop self (cyc :: rest) = loop_body self cyc ∧
  result (loop_body self cyc) = Raise cancelled_error ∧
  sleeps (trace (loop_body self cyc)) = [].
Proof.
  intros Hb Herr Hc. apply built_shaped in Hb.
  assert (Hj := update_data_events self cyc).
  assert (Hf := update_data_fails self cyc Herr).
  assert (Hbody : result (loop_body self cyc) = Raise cancelled_error ∧
                  sleeps (trace (loop_body self cyc)) = []).
  { rewrite (loop_body_shaped c) by done. cbn zeta.
    set (job := update_data self cyc) in *. clearbody job.
    rewrite Hc. unfold asyncio_sleep.
    destruct p; repeat case_bool_decide; try congruence.
    - cbn. split; [done|]. by apply (sleeps_job (trace job)).
    - destruct (result job) as [[]|e']; [|simpl in Hf; rewrite Hf]; cbn;
        rewrite ?app_nil_r; (split; [done|]);
        change (sleeps (?t ++ ?l)) with (sleeps (t ++ l));
        by rewrite sleeps_app, sleeps_job. }
  split; [|exact Hbody]. destruct Hbody as [Hr _].
  cbn [update_data_loop]. rewrite (surjective_pairing (loop_body self cyc)).
  fold (trace (loop_body self cyc)). fold (result (loop_body self cyc)).
  by rewrite Hr.
Qed.

(** X10: over cycles that are not cancelled and fail with errors only, the
    loop writes one error record per failing cycle and none for a cycle
    that succeeds. *)
Theorem one_error_log_per_failing_cycle c self cycles :
  built get_inverter_class c self →
  Forall raises_errors cycles →
  Forall (λ cyc, cancel cyc = None) cycles →
  length (List.filter is_error_log (trace (update_data_loop self cycles))) =
  length (List.filter (λ cyc, raised (result (update_data self cyc))) cycles).
Proof.
  intros Hb Herrs Hcs. apply built_shaped in Hb.
  induction Hcs as [|cyc cycles Hc _ IH]; [done|].
  apply Forall_cons in Herrs as [Herr Herrs].
  destruct (loop_body_alive c self cyc Hb Herr Hc) as (Hr & _ & _).
  cbn [update_data_loop List.filter].
  rewrite trace_bind, Hr, List.filter_app, length_app, (IH Herrs).
  assert (Hj := update_data_events self cyc).
  assert (Hf := update_data_fails self cyc Herr).
  rewrite (loop_body_shaped c) by done. cbn zeta.
  set (job := update_data self cyc) in *. clearbody job.
  rewrite Hc, !bool_decide_eq_false_2 by done.
  destruct (result job) as [[]|e]; [|simpl in Hf; rewrite Hf]; cbn;
    rewrite <- ?app_assoc, List.filter_app, error_logs_job by done; done.
Qed.

(** *** The control path behind the registry lookup *)

(** X11: with the entity registry bound to the instance and the select
    entity resolved to a setting, the control path calls [set_mode] once
    with the command when the table allows its source, and the coroutine's
    outcome is that of [set_mode]: a device failure is neither caught nor
    retried.  When the table denies the source it only writes an
    informational record and returns. *)
Theorem control_path_resolved c self host command entity_id v :
  built get_inverter_class c self →
  entities host !! ("select", DOMAIN, entry_id c +:+ "_inverter_control")
    = Some entity_id →
  entity_id ≠ "" →
  states host !! entity_id = Some v →
  handle_inverter_control DOMAIN (attach_registry self) host command =
  let seen :=
    [EGetEntityId "select" DOMAIN (entry_id c +:+ "_inverter_control");
     EStatesGet entity_id;
     ELog DEBUG [Lit "Inverter Control value: "; FStr v]] in
  if source_allowed v (_source command)
  then (seen ++ [ESetMode command], set_mode host command)
  else
    (seen ++
     [ELog INFO
        [Lit "Source '"; FStr (_source command);
         Lit "' is not allowed by Inverter Control setting '";
         FStr v; Lit "'."]],
     Ok tt).
Proof.
  intros Hb He Hne Hv. apply built_shaped in Hb.
  rewrite (handle_inverter_control_attached DOMAIN c) by done. cbn zeta.
  by rewrite He, bool_decide_eq_false_2, Hv.
Qed.

(** X12: with the entity registry bound to the instance, a select entity
    that the registry does not know (or knows under an empty id) makes the
    control path log an error and return without reading any state; an
    entity without a state makes it log an error and return after the one
    state read.  Neither case reaches the table or [set_mode]. *)
Theorem control_path_unresolved c self host command :
  built get_inverter_class c self →
  match entities host
          !! ("select", DOMAIN, entry_id c +:+ "_inverter_control") with
  | Some entity_id =>
      if bool_decide (entity_id = "") then
        handle_inverter_control DOMAIN (attach_registry self) host command =
        ([EGetEntityId "select" DOMAIN (entry_id c +:+ "_inverter_control");
          ELog ERROR [Lit "Inverter Control select entity not found."]],
         Ok tt)
      else
        states host !! entity_id = None →
        handle_inverter_control DOMAIN (attach_registry self) host command =
        ([EGetEntityId "select" DOMAIN (entry_id c +:+ "_inverter_control");
          EStatesGet entity_id;
          ELog ERROR
            [Lit "Unable to get state of Inverter Control select entity."]],
         Ok tt)
  | None =>
      handle_inverter_control DOMAIN (attach_registry self) host command =
      ([EGetEntityId "select" DOMAIN (entry_id c +:+ "_inverter_control");
        ELog ERROR [Lit "Inverter Control select entity not found."]],
       Ok tt)
  end.
Proof.
  intros Hb. apply built_shaped in Hb.
  rewrite (handle_inverter_control_attached DOMAIN c) by done. cbn zeta.
  destruct (entities host !! _) as [entity_id|]; [|done].
  case_bool_decide; [done|]. by intros ->.
Qed.

(** X13: "Full control" allows exactly what "Only timer" and "Only
    Fusebox" allow together, those two allow nothing in common, and a
    source allowed under any setting is allowed under "Full control". *)
Theorem full_control_is_the_union :
  (∀ o, source_allowed "Full control" o =
        source_allowed "Only timer" o || source_allowed "Only Fusebox" o) ∧
  (∀ o, source_allowed "Only timer" o && source_allowed "Only Fusebox" o
        = false) ∧
  (∀ v o, source_allowed v o = true → source_allowed "Full control" o = true).
Proof.
  assert (Hfull : ∀ o, source_allowed "Full control" o =
                       bool_decide (o = "timer" ∨ o = "fusebox")).
  { intros o. unfold source_allowed, allowed_sources.
    rewrite control_map_lookup.
    repeat (case_decide; [congruence|]). case_decide; [|congruence].
    apply bool_decide_ext. simpl. rewrite !elem_of_cons, elem_of_nil. tauto. }
  assert (Htimer : ∀ o, source_allowed "Only timer" o =
                        bool_decide (o = "timer")).
  { intros o. unfold source_allowed, allowed_sources.
    rewrite control_map_lookup.
    repeat (case_decide; [congruence|]). case_decide; [|congruence].
    apply bool_decide_ext. simpl. rewrite !elem_of_cons, elem_of_nil. tauto. }
  assert (Hfuse : ∀ o, source_allowed "Only Fusebox" o =
                       bool_decide (o = "fusebox")).
  { intros o. unfold source_allowed, allowed_sources.
    rewrite control_map_lookup.
    repeat (case_decide; [congruence|]). case_decide; [|congruence].
    apply bool_decide_ext. simpl. rewrite !elem_of_cons, elem_of_nil. tauto. }
  split; [|split].
  - intros o. rewrite Hfull, Htimer, Hfuse.
    repeat case_bool_decide; subst; simpl; try done; tauto.
  - intros o. rewrite Htimer, Hfuse.
    repeat case_bool_decide; subst; simpl; done.
  - intros v o. rewrite Hfull. unfold source_allowed, allowed_sources.
    rewrite control_map_lookup, !bool_decide_eq_true.
    repeat case_decide; subst; simpl;
      rewrite ?elem_of_cons, ?elem_of_nil; tauto.
Qed.

(** *** Signals of different instances *)

(** X14: two instances whose entries carry different inverter ids (given
    as strings) post their commands under different dispatcher signals. *)
Theorem signals_do_not_collide c1 c2 self1 self2 id1 id2 command :
  built get_inverter_class c1 self1 →
  built get_inverter_class c2 self2 →
  data c1 !! "inverter_id" = Some (VStr id1) →
  data c2 !! "inverter_id" = Some (VStr id2) →
  id1 ≠ id2 →
  ∃ signal1 signal2,
    scheduled (trace (_on_command_received DOMAIN self1 Running command)) =
      [HControl command; HDispatch signal1 command] ∧
    scheduled (trace (_on_command_received DOMAIN self2 Running command)) =
      [HControl command; HDispatch signal2 command] ∧
    signal1 ≠ signal2.
Proof.
  intros Hb1 Hb2 H1 H2 Hne.
  destruct (_on_command_received_built DOMAIN get_inverter_class
              c1 self1 self1 command Hb1 (or_introl eq_refl))
    as (v1 & Hv1 & Hrun1 & _).
  destruct (_on_command_received_built DOMAIN get_inverter_class
              c2 self2 self2 command Hb2 (or_introl eq_refl))
    as (v2 & Hv2 & Hrun2 & _).
  rewrite H1 in Hv1. rewrite H2 in Hv2.
  injection Hv1 as <-. injection Hv2 as <-.
  exists (DOMAIN +:+ "_workmode_update_" +:+ id1),
         (DOMAIN +:+ "_workmode_update_" +:+ id2).
  rewrite Hrun1, Hrun2. repeat split.
  intros Heq. apply append_inj_l, append_inj_l in Heq. done.
Qed.

End Lifecycle.

(** ** Instances of the lifecycle, telemetry and control-path theorems *)

Lemma initialize_client_builds_client_witness :
  built sample_classes sample_entry sample_self ∧
  ∃ u p i,
    data sample_entry !! "mqtt_username" = Some u ∧
    data sample_entry !! "mqtt_password" = Some p ∧
    data sample_entry !! "inverter_id" = Some i ∧
    initialize_client working_link sample_self =
    (sample_started,
     ([ELog DEBUG [Lit "Initializing Qilowatt MQTT client"];
       ENewClient (Bound (AVal u)) (Bound (AVal p)) (Bound (AVal i));
       ESetCommandCallback "_on_command_received"],
      Ok tt)).
Proof.
  assert (Hb : built sample_classes sample_entry sample_self)
    by (apply built_init; by_compute).
  split; [exact Hb|].
  exact (initialize_client_builds_client sample_classes sample_entry
           sample_self working_link Hb).
Defined.

Lemma first_start_witness :
  result (__init__ sample_classes sample_entry) = Ok sample_self ∧
  ∃ u p i,
    data sample_entry !! "mqtt_username" = Some u ∧
    data sample_entry !! "mqtt_password" = Some p ∧
    data sample_entry !! "inverter_id" = Some i ∧
    start refusing_link sample_self =
    (sample_started,
     ([ELog DEBUG [Lit "Starting Qilowatt MQTT client"];
       ELog DEBUG [Lit "Initializing Qilowatt MQTT client"];
       ENewClient (Bound (AVal u)) (Bound (AVal p)) (Bound (AVal i));
       ESetCommandCallback "_on_command_received"; EConnect],
      Raise (mk_exn RuntimeError "connection refused"))).
Proof.
  assert (Hi : result (__init__ sample_classes sample_entry) = Ok sample_self)
    by by_compute.
  split; [exact Hi|].
  exact (first_start sample_classes sample_entry sample_self refusing_link Hi).
Defined.

Lemma repeated_start_witness :
  built sample_classes sample_entry sample_self ∧
  start working_link sample_self =
    (sample_started,
     ([ELog DEBUG [Lit "Starting Qilowatt MQTT client"];
       ELog DEBUG [Lit "Initializing Qilowatt MQTT client"];
       ENewClient (Bound (AVal (VStr "user"))) (Bound (AVal (VStr "secret")))
         (Bound (AVal (VStr "inv42")));
       ESetCommandCallback "_on_command_received"; EConnect;
       ECreateTask "update_data_loop"],
      Ok tt)) ∧
  start working_link sample_started =
  (sample_started,
   ([ELog DEBUG [Lit "Starting Qilowatt MQTT client"]; EConnect;
     ECreateTask "update_data_loop"],
    Ok tt)).
Proof.
  assert (Hb : built sample_classes sample_entry sample_self)
    by (apply built_init; by_compute).
  assert (Hr : start working_link sample_self =
    (sample_started,
     ([ELog DEBUG [Lit "Starting Qilowatt MQTT client"];
       ELog DEBUG [Lit "Initializing Qilowatt MQTT client"];
       ENewClient (Bound (AVal (VStr "user"))) (Bound (AVal (VStr "secret")))
         (Bound (AVal (VStr "inv42")));
       ESetCommandCallback "_on_command_received"; EConnect;
       ECreateTask "update_data_loop"],
      Ok tt))) by by_compute.
  split; [exact Hb|]. split; [exact Hr|].
  exact (repeated_start sample_classes sample_entry sample_self working_link
           sample_started _ working_link Hb Hr).
Defined.

Lemma stop_disconnects_witness :
  built sample_classes sample_entry sample_started ∧
  ((sample_started !! "qilowatt_client" = Some (AVal VNone) ∧
    stop refusing_link sample_started =
    ([ELog DEBUG [Lit "Stopping Qilowatt MQTT client"]], Ok tt)) ∨
   (sample_started !! "qilowatt_client" = Some AQilowattClient ∧
    stop refusing_link sample_started =
    ([ELog DEBUG [Lit "Stopping Qilowatt MQTT client"]; EDisconnect],
     Raise (mk_exn RuntimeError "not connected")))).
Proof.
  assert (Hb : built sample_classes sample_entry sample_started)
    by sample_started_built.
  split; [exact Hb|].
  exact (stop_disconnects sample_classes sample_entry sample_started
           refusing_link Hb).
Defined.

Lemma update_data_before_start_witness :
  result (__init__ sample_classes sample_entry) = Ok sample_self ∧
  update_data sample_self good_cycle =
  ([EGetEnergyData; EGetMetricsData],
   Raise (mk_exn AttributeError
            "'NoneType' object has no attribute 'set_energy_data'")).
Proof.
  assert (Hi : result (__init__ sample_classes sample_entry) = Ok sample_self)
    by by_compute.
  split; [exact Hi|].
  exact (update_data_before_start sample_classes sample_entry sample_self
           good_cycle (mk_energy [1%Z]) (mk_metrics [2%Z])
           Hi eq_refl eq_refl).
Defined.

Lemma update_data_hands_over_readings_witness :
  built sample_classes sample_entry sample_self ∧
  start working_link sample_self =
    (sample_started,
     ([ELog DEBUG [Lit "Starting Qilowatt MQTT client"];
       ELog DEBUG [Lit "Initializing Qilowatt MQTT client"];
       ENewClient (Bound (AVal (VStr "user"))) (Bound (AVal (VStr "secret")))
         (Bound (AVal (VStr "inv42")));
       ESetCommandCallback "_on_command_received"; EConnect;
       ECreateTask "update_data_loop"],
      Ok tt)) ∧
  update_data sample_started good_cycle =
  ([EGetEnergyData; EGetMetricsData; ESetEnergyData (mk_energy [1%Z]);
    ESetMetricsData (mk_metrics [2%Z])],
   Ok tt).
Proof.
  assert (Hb : built sample_classes sample_entry sample_self)
    by (apply built_init; by_compute).
  assert (Hr : start working_link sample_self =
    (sample_started,
     ([ELog DEBUG [Lit "Starting Qilowatt MQTT client"];
       ELog DEBUG [Lit "Initializing Qilowatt MQTT client"];
       ENewClient (Bound (AVal (VStr "user"))) (Bound (AVal (VStr "secret")))
         (Bound (AVal (VStr "inv42")));
       ESetCommandCallback "_on_command_received"; EConnect;
       ECreateTask "update_data_loop"],
      Ok tt))) by by_compute.
  split; [exact Hb|]. split; [exact Hr|].
  exact (update_data_hands_over_readings sample_classes sample_entry
           sample_self working_link sample_started _ good_cycle
           (mk_energy [1%Z]) (mk_metrics [2%Z]) Hb Hr eq_refl eq_refl).
Defined.

Lemma loop_ends_on_base_exception_witness :
  built sample_classes sample_entry sample_started ∧
  cancel fatal_cycle ≠ Some AtExecutorJob ∧
  result (update_data sample_started fatal_cycle) =
    Raise (mk_exn SystemExit "") ∧
  is_Exception (mk_exn SystemExit "") = false ∧
  update_data_loop sample_started [fatal_cycle; good_cycle] =
  (EExecutorJob :: trace (update_data sample_started fatal_cycle) ++ [EJobDone],
   Raise (mk_exn SystemExit "")).
Proof.
  assert (Hb : built sample_classes sample_entry sample_started)
    by sample_started_built.
  assert (Hc : cancel fatal_cycle ≠ Some AtExecutorJob) by discriminate.
  assert (He : result (update_data sample_started fatal_cycle) =
               Raise (mk_exn SystemExit "")) by by_compute.
  split; [exact Hb|]. split; [exact Hc|]. split; [exact He|].
  split; [reflexivity|].
  exact (loop_ends_on_base_exception sample_classes sample_entry
           sample_started fatal_cycle [good_cycle] (mk_exn SystemExit "")
           Hb Hc He eq_refl).
Defined.

Lemma cancelled_loop_stops_witness :
  built sample_classes sample_entry sample_started ∧
  raises_errors cancelled_cycle ∧
  cancel cancelled_cycle = Some AtSleep ∧
  update_data_loop sample_started [cancelled_cycle; good_cycle] =
    loop_body sample_started cancelled_cycle ∧
  result (loop_body sample_started cancelled_cycle) = Raise cancelled_error ∧
  sleeps (trace (loop_body sample_started cancelled_cycle)) = [].
Proof.
  assert (Hb : built sample_classes sample_entry sample_started)
    by sample_started_built.
  assert (Herr : raises_errors cancelled_cycle)
    by (constructor; simpl; auto).
  split; [exact Hb|]. split; [exact Herr|]. split; [reflexivity|].
  exact (cancelled_loop_stops sample_classes sample_entry sample_started
           cancelled_cycle [good_cycle] AtSleep Hb Herr eq_refl).
Defined.

Lemma one_error_log_per_failing_cycle_witness :
  built sample_classes sample_entry sample_started ∧
  Forall raises_errors [failing_cycle; good_cycle; failing_cycle] ∧
  Forall (λ cyc, cancel cyc = None) [failing_cycle; good_cycle; failing_cycle] ∧
  length (List.filter is_error_log
            (trace (update_data_loop sample_started
                      [failing_cycle; good_cycle; failing_cycle]))) =
  length (List.filter
            (λ cyc, raised (result (update_data sample_started cyc)))
            [failing_cycle; good_cycle; failing_cycle]).
Proof.
  assert (Hb : built sample_classes sample_entry sample_started)
    by sample_started_built.
  assert (Herr : Forall raises_errors
                   [failing_cycle; good_cycle; failing_cycle]).
  { repeat constructor; simpl; reflexivity. }
  assert (Hc : Forall (λ cyc, cancel cyc = None)
                 [failing_cycle; good_cycle; failing_cycle]).
  { repeat constructor. }
  split; [exact Hb|]. split; [exact Herr|]. split; [exact Hc|].
  exact (one_error_log_per_failing_cycle sample_classes sample_entry
           sample_started [failing_cycle; good_cycle; failing_cycle]
           Hb Herr Hc).
Defined.

Lemma control_path_resolved_witness :
  built sample_classes sample_entry sample_self ∧
  handle_inverter_control "qilowatt" (attach_registry sample_self)
    failing_device_host timer_command =
  ([EGetEntityId "select" "qilowatt" "entry1_inverter_control";
    EStatesGet "select.inverter_control";
    ELog DEBUG [Lit "Inverter Control value: "; FStr "Full control"];
    ESetMode timer_command],
   Raise (mk_exn RuntimeError "inverter offline")).
Proof.
  assert (Hb : built sample_classes sample_entry sample_self)
    by (apply built_init; by_compute).
  split; [exact Hb|].
  assert (He : entities failing_device_host
                 !! ("select", "qilowatt",
                     entry_id sample_entry +:+ "_inverter_control")
               = Some "select.inverter_control") by by_compute.
  assert (Hne : "select.inverter_control" ≠ "") by discriminate.
  assert (Hv : states failing_device_host !! "select.inverter_control"
               = Some "Full control") by by_compute.
  exact (control_path_resolved "qilowatt" sample_classes sample_entry
           sample_self failing_device_host timer_command
           "select.inverter_control" "Full control" Hb He Hne Hv).
Defined.

Lemma control_path_unresolved_witness :
  built sample_classes sample_entry sample_self ∧
  handle_inverter_control "qilowatt" (attach_registry sample_self)
    unregistered_host timer_command =
  ([EGetEntityId "select" "qilowatt" "entry1_inverter_control";
    ELog ERROR [Lit "Inverter Control select entity not found."]],
   Ok tt).
Proof.
  assert (Hb : built sample_classes sample_entry sample_self)
    by (apply built_init; by_compute).
  split; [exact Hb|].
  exact (control_path_unresolved "qilowatt" sample_classes sample_entry
           sample_self unregistered_host timer_command Hb).
Defined.

Lemma signals_do_not_collide_witness :
  built sample_classes sample_entry sample_self ∧
  built sample_classes sample_entry_b sample_self_b ∧
  ∃ signal1 signal2,
    scheduled (trace (_on_command_received "qilowatt" sample_self
                        Running timer_command)) =
      [HControl timer_command; HDispatch signal1 timer_command] ∧
    scheduled (trace (_on_command_received "qilowatt" sample_self_b
                        Running timer_command)) =
      [HControl timer_command; HDispatch signal2 timer_command] ∧
    signal1 ≠ signal2.
Proof.
  assert (Hb1 : built sample_classes sample_entry sample_self)
    by (apply built_init; by_compute).
  assert (Hb2 : built sample_classes sample_entry_b sample_self_b)
    by (apply built_init; by_compute).
  split; [exact Hb1|]. split; [exact Hb2|].
  apply (signals_do_not_collide "qilowatt" sample_classes sample_entry
           sample_entry_b sample_self sample_self_b "inv42" "inv43"
           timer_command Hb1 Hb2); [by_compute | by_compute | discriminate].
Defined.
